(** * Locations data load: a shallow embedding of [locations_lambda.py]

    The script pulls organisation records from a directory API, normalises
    them, writes them to the [locations] table and links them to the
    [organisations] table.  The embedding follows the Python source function
    by function:

    - JSON-like Python values are the inductive [pyval]; a Python [dict] is an
      association list in insertion order (keys are strings, as in JSON);
    - a Python exception is the [Raise] branch of [outcome];
    - the external services (parameter store, token endpoint, directory API,
      spreadsheet, clock and uuid source) are the fields of a record [env];
    - the [locations] table is a finite map keyed by the [id] attribute, and
      the effectful functions run in a state monad over that table, the
      printed lines and the requests sent so far.

    What the embedding leaves out: numbers with a fraction, text outside
    ASCII in [str.title()], the format string of [strftime] (the clock gives
    the formatted time), pages of a table scan (a scan reads the whole
    table), and failures of the table service other than the rejection of an
    item or key without a string [id]. *)

From Stdlib Require Import String Ascii ZArith NArith List Bool Lia DecimalString.
From stdpp Require Import base option list gmap strings fin_maps.

Local Open Scope string_scope.
Local Open Scope list_scope.

(** ** Python values and exceptions *)

#[local] Unset Elimination Schemes.
Inductive pyval : Type :=
| PNone
| PBool (b : bool)
| PInt (z : Z)
| PStr (s : string)
| PList (l : list pyval)
| PDict (d : list (string * pyval)).
#[local] Set Elimination Schemes.

Abbreviation dict := (list (string * pyval)).

Inductive exn : Type :=
| TypeError
| AttributeError
| IndexError
| KeyError
| UnboundLocalError
| ValueError
| ValidationError
| ExternalError.

Inductive outcome (A : Type) : Type :=
| Ok (a : A)
| Raise (e : exn).
Arguments Ok {A} a.
Arguments Raise {A} e.

#[global] Instance outcome_ret : MRet outcome := fun _ a => Ok a.
#[global] Instance outcome_bind : MBind outcome := fun _ _ f c =>
  match c with
  | Ok a => f a
  | Raise e => Raise e
  end.

(** [try: c except Exception: h] *)
Definition try_except {A} (c : outcome A) (h : A) : A :=
  match c with
  | Ok a => a
  | Raise _ => h
  end.

Fixpoint mapM {A B} (f : A → outcome B) (l : list A) : outcome (list B) :=
  match l with
  | [] => Ok []
  | x :: r => y ← f x; ys ← mapM f r; Ok (y :: ys)
  end.

Fixpoint foldlM {A B} (f : B → A → outcome B) (acc : B) (l : list A) : outcome B :=
  match l with
  | [] => Ok acc
  | x :: r => acc' ← f acc x; foldlM f acc' r
  end.

(** ** Dictionaries *)

Fixpoint dict_lookup (k : string) (d : dict) : option pyval :=
  match d with
  | [] => None
  | (k', v) :: r => if String.eqb k' k then Some v else dict_lookup k r
  end.

(** [d[k] = v]: an existing key keeps its position, a new key goes last. *)
Fixpoint dict_set (k : string) (v : pyval) (d : dict) : dict :=
  match d with
  | [] => [(k, v)]
  | (k', v') :: r =>
      if String.eqb k' k then (k, v) :: r else (k', v') :: dict_set k v r
  end.

(** [d.pop(k)] for a key that is present (the value is discarded). *)
Fixpoint dict_pop (k : string) (d : dict) : dict :=
  match d with
  | [] => []
  | (k', v') :: r => if String.eqb k' k then r else (k', v') :: dict_pop k r
  end.

Definition keys (d : dict) : list string := d.*1.

(** ** Primitive operations of Python on values *)

(** [v.get(k, dflt)]; only a dict has [get]. *)
Definition py_get_default (v : pyval) (k : string) (dflt : pyval) : outcome pyval :=
  match v with
  | PDict d => Ok (default dflt (dict_lookup k d))
  | _ => Raise AttributeError
  end.

(** [v.get(k)] *)
Definition py_get (v : pyval) (k : string) : outcome pyval :=
  py_get_default v k PNone.

(** [v[i]] for a literal index [i >= 0].  A dict has string keys only, so an
    integer subscript is a [KeyError]. *)
Definition py_index (v : pyval) (i : nat) : outcome pyval :=
  match v with
  | PList l => match l !! i with Some x => Ok x | None => Raise IndexError end
  | PStr s =>
      match String.get i s with
      | Some c => Ok (PStr (String c EmptyString))
      | None => Raise IndexError
      end
  | PDict _ => Raise KeyError
  | PNone | PBool _ | PInt _ => Raise TypeError
  end.

(** [for x in v]: the elements a [for] loop or a comprehension visits. *)
Definition py_iter (v : pyval) : outcome (list pyval) :=
  match v with
  | PList l => Ok l
  | PStr s => Ok ((λ c, PStr (String c EmptyString)) <$> list_ascii_of_string s)
  | PDict d => Ok (PStr <$> keys d)
  | PNone | PBool _ | PInt _ => Raise TypeError
  end.

(** [v.items()] *)
Definition py_items (v : pyval) : outcome dict :=
  match v with
  | PDict d => Ok d
  | _ => Raise AttributeError
  end.

Definition isinstance_list (v : pyval) : bool :=
  match v with PList _ => true | _ => false end.

Definition isinstance_dict (v : pyval) : bool :=
  match v with PDict _ => true | _ => false end.

(** Truth value of [v] in [if v:]. *)
Definition py_truthy (v : pyval) : bool :=
  match v with
  | PNone => false
  | PBool b => b
  | PInt z => negb (z =? 0)%Z
  | PStr s => negb (String.eqb s "")
  | PList l => match l with [] => false | _ => true end
  | PDict d => match d with [] => false | _ => true end
  end.

(** [v == "s"] for a string literal. *)
Definition py_eq_str (v : pyval) (s : string) : bool :=
  match v with
  | PStr s' => String.eqb s' s
  | _ => false
  end.

(** [a == b].  [True == 1] and [False == 0] hold in Python; two dicts are
    equal when they have the same keys with equal values, in any order. *)
Fixpoint py_eq (a b : pyval) : bool :=
  match a, b with
  | PNone, PNone => true
  | PBool x, PBool y => Bool.eqb x y
  | PBool x, PInt y | PInt y, PBool x => (y =? (if x then 1 else 0))%Z
  | PInt x, PInt y => (x =? y)%Z
  | PStr x, PStr y => String.eqb x y
  | PList x, PList y =>
      (fix go (x y : list pyval) : bool :=
         match x, y with
         | [], [] => true
         | a :: x', b :: y' => py_eq a b && go x' y'
         | _, _ => false
         end) x y
  | PDict x, PDict y =>
      (length x =? length y)%nat &&
      forallb (λ kv, match dict_lookup kv.1 y with
                     | Some w => py_eq kv.2 w
                     | None => false
                     end) x
  | _, _ => false
  end.

(** Attribute equality of the store ([Attr(...).eq(v)]): the two values have
    the same type and the same content. *)
Fixpoint pyval_eqb (a b : pyval) : bool :=
  match a, b with
  | PNone, PNone => true
  | PBool x, PBool y => Bool.eqb x y
  | PInt x, PInt y => (x =? y)%Z
  | PStr x, PStr y => String.eqb x y
  | PList x, PList y =>
      (fix go (x y : list pyval) : bool :=
         match x, y with
         | [], [] => true
         | a :: x', b :: y' => pyval_eqb a b && go x' y'
         | _, _ => false
         end) x y
  | PDict x, PDict y =>
      (fix go (x y : dict) : bool :=
         match x, y with
         | [], [] => true
         | (k, a) :: x', (k', b) :: y' =>
             String.eqb k k' && pyval_eqb a b && go x' y'
         | _, _ => false
         end) x y
  | _, _ => false
  end.

Section pyval_induction.
Variable P : pyval → Prop.
Hypothesis HNone : P PNone.
Hypothesis HBool : ∀ b, P (PBool b).
Hypothesis HInt : ∀ z, P (PInt z).
Hypothesis HStr : ∀ s, P (PStr s).
Hypothesis HList : ∀ l, Forall P l → P (PList l).
Hypothesis HDict : ∀ d : dict, Forall (λ kv, P kv.2) d → P (PDict d).

Fixpoint pyval_ind (v : pyval) : P v :=
  match v with
  | PNone => HNone
  | PBool b => HBool b
  | PInt z => HInt z
  | PStr s => HStr s
  | PList l =>
      HList l
        ((fix go (l : list pyval) : Forall P l :=
            match l with
            | [] => Forall_nil_2 P
            | x :: r => Forall_cons_2 P x r (pyval_ind x) (go r)
            end) l)
  | PDict d =>
      HDict d
        ((fix go (d : dict) : Forall (λ kv, P kv.2) d :=
            match d with
            | [] => Forall_nil_2 _
            | kv :: r => Forall_cons_2 (λ kv, P kv.2) kv r (pyval_ind kv.2) (go r)
            end) d)
  end.
End pyval_induction.

Lemma pyval_eqb_spec (a b : pyval) : pyval_eqb a b = true ↔ a = b.
Proof.
  revert b. induction a as [| x | x | x | l IH | d IH] using pyval_ind;
    intros [| y | y | y | l' | d']; simpl; try (split; [discriminate | congruence]);
    try tauto.
  - rewrite Bool.eqb_true_iff. split; congruence.
  - rewrite Z.eqb_eq. split; congruence.
  - rewrite String.eqb_eq. split; congruence.
  - revert l'. induction IH as [| a l Ha _ IHl]; intros [| b l']; simpl;
      try (split; [discriminate | congruence]); try tauto.
    rewrite andb_true_iff, Ha, (IHl l'). split.
    + intros [-> H]. by injection H as ->.
    + intros H. injection H as -> ->. done.
  - revert d'. induction IH as [| [k a] d Ha _ IHd]; intros [| [k' b] d']; simpl;
      try (split; [discriminate | congruence]); try tauto.
    simpl in Ha. rewrite !andb_true_iff, String.eqb_eq, Ha, (IHd d'). split.
    + intros [[-> ->] H]. by injection H as ->.
    + intros H. injection H as -> -> ->. done.
Qed.

#[global] Instance pyval_eq_dec : EqDecision pyval.
Proof.
  intros a b. destruct (pyval_eqb a b) eqn:H.
  - left. by apply pyval_eqb_spec.
  - right. intros Heq. apply pyval_eqb_spec in Heq. congruence.
Defined.

(** ** [str.title()]

    CPython walks the string once: a character that follows a cased character
    is lower-cased, any other character is title-cased.  The embedding covers
    ASCII text; a byte above 127 is uncased and stays as it is. *)

Definition is_upper (c : ascii) : bool :=
  let n := N_of_ascii c in ((65 <=? n) && (n <=? 90))%N.

Definition is_lower (c : ascii) : bool :=
  let n := N_of_ascii c in ((97 <=? n) && (n <=? 122))%N.

Definition is_cased (c : ascii) : bool := is_upper c || is_lower c.

Definition to_upper (c : ascii) : ascii :=
  if is_lower c then ascii_of_N (N_of_ascii c - 32) else c.

Definition to_lower (c : ascii) : ascii :=
  if is_upper c then ascii_of_N (N_of_ascii c + 32) else c.

Fixpoint title_from (previous_is_cased : bool) (s : string) : string :=
  match s with
  | EmptyString => EmptyString
  | String c r =>
      String (if previous_is_cased then to_lower c else to_upper c)
             (title_from (is_cased c) r)
  end.

Definition title (s : string) : string := title_from false s.

(** [v.title()]; only a str has [title]. *)
Definition py_title (v : pyval) : outcome pyval :=
  match v with
  | PStr s => Ok (PStr (title s))
  | _ => Raise AttributeError
  end.

(** ** Record normaliser *)

Definition capitalize_line (line : pyval) : outcome pyval := py_title line.

Definition in_city_district_country (key : string) : bool :=
  String.eqb key "city" || String.eqb key "district" || String.eqb key "country".

(** One turn of the loop over [address_item.items()]. *)
Definition capitalize_entry (capitalized_item : dict) (kv : string * pyval)
  : outcome dict :=
  let '(key, value) := kv in
  if String.eqb key "line" && isinstance_list value then
    elems ← py_iter value;
    lines ← mapM capitalize_line elems;
    Ok (dict_set key (PList lines) capitalized_item)
  else if in_city_district_country key then
    v ← py_title value;
    Ok (dict_set key v capitalized_item)
  else if String.eqb key "postalCode" then
    Ok (dict_set key value capitalized_item)
  else if negb (String.eqb key "extension") then
    Ok (dict_set key value capitalized_item)
  else
    Ok capitalized_item.

Definition capitalize_address_item (address_item : pyval) : outcome pyval :=
  items ← py_items address_item;
  capitalized_item ← foldlM capitalize_entry [] items;
  Ok (PDict capitalized_item).

(** The nested lookup of the UPRN: the body of the [try] block. *)
Definition uprn_path (org : pyval) : outcome pyval :=
  address ← py_get org "address";
  address0 ← py_index address 0;
  extension ← py_get address0 "extension";
  extension0 ← py_index extension 0;
  inner ← py_get extension0 "extension";
  inner1 ← py_index inner 1;
  py_get inner1 "valueString".

(** One turn of the loop of [process_organizations]. *)
Definition process_entry (random_id now_time : string)
    (processed_data : list pyval) (resvars : pyval) : outcome (list pyval) :=
  org ← py_get resvars "resource";
  resource_type ← py_get org "resourceType";
  if py_eq_str resource_type "Organization" then
    let uprn := try_except (uprn_path org) (PStr "NA") in
    address ← py_get_default org "address" (PList []);
    address_items ← py_iter address;
    capitalized_address ←
      mapM capitalize_address_item (List.filter isinstance_dict address_items);
    lookup_field ← py_get org "id";
    name ← py_get org "name";
    name ← py_title name;
    let processed_attributes : dict :=
      [ ("id", PStr random_id);
        ("lookup_field", lookup_field);
        ("active", PStr "true");
        ("name", name);
        ("Address", PList capitalized_address);
        ("createdDateTime", PStr now_time);
        ("createdBy", PStr "Admin");
        ("modifiedBy", PStr "Admin");
        ("modifiedDateTime", PStr now_time);
        ("UPRN", uprn);
        ("position", PDict [("longitude", PStr ""); ("latitude", PStr "")]);
        ("managingOrganization", PStr "") ] in
    let processed_attributes :=
      if py_eq_str uprn "NA" then dict_pop "UPRN" processed_attributes
      else processed_attributes in
    Ok (processed_data ++ [PDict processed_attributes])
  else
    Ok processed_data.

(** The loop of [process_organizations], once [random_id] and [now_time]
    have been drawn. *)
Definition process_organizations_with (random_id now_time : string)
    (organizations : pyval) : outcome (list pyval) :=
  entries ← py_iter organizations;
  foldlM (process_entry random_id now_time) [] entries.

(** ** The outside world *)

(** What [requests.get] or [requests.post] can do: raise with a message, or
    answer with a status, a body text and what [response.json()] gives: the
    decoded body, or the message of the decoding error it raises. *)
Inductive http_outcome : Type :=
| HttpError (message : string)
| HttpResponse (status_code : Z) (text : string) (json : pyval + string).

Record request : Type := {
  req_endpoint : string;
  req_headers : pyval;
  req_params : pyval
}.

(** Every external answer may depend on the number of external calls made
    before it (the first argument), so a service is free to answer the same
    request differently each time. *)
Record env : Type := {
  ssm_get_parameter : nat → string → outcome string;
  requests_post : nat → string → pyval → pyval → http_outcome;
  requests_get : nat → request → http_outcome;
  read_excel_codes : nat → string → outcome (list pyval);
  uuid4_int : nat → N;
  datetime_now : nat → string;
  (** [Items] of a scan of the [organisations] table, which the script only
      reads. *)
  organisations : list dict
}.

(** The [locations] table maps the key attribute [id] to the item; [stdout]
    holds the printed lines and [sent] the directory requests, oldest first. *)
Record state : Type := {
  locations : gmap string dict;
  stdout : list string;
  sent : list request;
  clock : nat
}.

Definition M (A : Type) : Type := state → outcome A * state.

#[global] Instance M_ret : MRet M := fun _ a s => (Ok a, s).
#[global] Instance M_bind : MBind M := fun _ _ f c s =>
  match c s with
  | (Ok a, s') => f a s'
  | (Raise e, s') => (Raise e, s')
  end.

Definition lift {A} (c : outcome A) : M A := fun s => (c, s).

Definition raise {A} (e : exn) : M A := fun s => (Raise e, s).

Definition tick : M nat := fun s =>
  (Ok (clock s),
   {| locations := locations s; stdout := stdout s; sent := sent s;
      clock := S (clock s) |}).

Definition print (line : string) : M unit := fun s =>
  (Ok tt,
   {| locations := locations s; stdout := stdout s ++ [line]; sent := sent s;
      clock := clock s |}).

Definition record_request (r : request) : M unit := fun s =>
  (Ok tt,
   {| locations := locations s; stdout := stdout s; sent := sent s ++ [r];
      clock := clock s |}).

Definition get_locations : M (gmap string dict) := fun s => (Ok (locations s), s).

Definition set_locations (t : gmap string dict) : M unit := fun s =>
  (Ok tt,
   {| locations := t; stdout := stdout s; sent := sent s; clock := clock s |}).

Fixpoint forM_ {A} (l : list A) (body : A → M unit) : M unit :=
  match l with
  | [] => mret tt
  | x :: r => _ ← body x; forM_ r body
  end.

(** ** The script *)

Definition ssm_base_api_url : string := "/data/api/lambda/ods/domain".
Definition ssm_param_id : string := "/data/api/lambda/client_id".
Definition ssm_param_sec : string := "/data/api/lambda/client_secret".
Definition odscode_file_path : string := "./ODS_Codes.xlsx".
Definition failed_to_fetch : string := "Failed to fetch data from the ODS API.".

(** [str(n)] for an integer. *)
Definition str_Z (z : Z) : string := NilZero.string_of_int (Z.to_int z).
Definition str_N (n : N) : string := NilZero.string_of_uint (N.to_uint n).

(** [d.get(k)] and [d.get(k, dflt)] on a table item, which is always a dict. *)
Definition dict_get (d : dict) (k : string) : pyval := default PNone (dict_lookup k d).
Definition dict_get_default (d : dict) (k : string) (dflt : pyval) : pyval :=
  default dflt (dict_lookup k d).

(** The key attribute of the [locations] table is the string [id]. *)
Definition item_key (item : dict) : option string :=
  match dict_lookup "id" item with
  | Some (PStr k) => Some k
  | _ => None
  end.

(** [table.scan(FilterExpression=Attr("lookup_field").eq(v))["Items"]]: the
    whole table is read and filtered (one page). *)
Definition scan_lookup_field (t : gmap string dict) (v : pyval) : list dict :=
  List.filter (λ item, bool_decide (dict_lookup "lookup_field" item = Some v))
              (map_to_list t).*2.

Section Script.
Variable E : env.

Definition get_ssm (name : string) : M string :=
  n ← tick;
  lift (ssm_get_parameter E n name).

Definition get_api_token : M pyval :=
  token_api_endpoint ← get_ssm ssm_base_api_url;
  let token_api_endpoint :=
    token_api_endpoint
      +:+ "//authorisation/auth/realms/terminology/protocol/openid-connect/token" in
  let headers :=
    PDict [ ("Content-Type", PStr "application/x-www-form-urlencoded");
            ("Accept", PStr "*/*");
            ("Accept-Encoding", PStr "gzip, deflate, br");
            ("Connection", PStr "Keep-alive") ] in
  client_id ← get_ssm ssm_param_id;
  client_secret ← get_ssm ssm_param_sec;
  let data :=
    PDict [ ("grant_type", PStr "client_credentials");
            ("client_id", PStr client_id);
            ("client_secret", PStr client_secret) ] in
  n ← tick;
  match requests_post E n token_api_endpoint headers data with
  | HttpError _ => raise ExternalError
  | HttpResponse _ _ (inr _) => raise ValueError
  | HttpResponse _ _ (inl body) => lift (py_get body "access_token")
  end.

(** ["Bearer " + token] is a [TypeError] unless [token] is a str. *)
Definition get_headers : M pyval :=
  token ← get_api_token;
  match token with
  | PStr t => mret (PDict [("Authorization", PStr ("Bearer " +:+ t))])
  | _ => raise TypeError
  end.

Definition read_ods_api (api_endpoint : string) (headers params : pyval) : M pyval :=
  n ← tick;
  let r := {| req_endpoint := api_endpoint; req_headers := headers;
              req_params := params |} in
  _ ← record_request r;
  match requests_get E n r with
  | HttpError message =>
      _ ← print ("An error occurred: " +:+ message);
      mret PNone
  | HttpResponse status_code text json =>
      if (status_code =? 200)%Z then
        match json with
        | inl response_data => mret response_data
        | inr message =>
            _ ← print ("An error occurred: " +:+ message);
            mret PNone
        end
      else
        _ ← print ("Error: " +:+ str_Z status_code +:+ " - " +:+ text);
        mret PNone
  end.

Definition process_organizations (organizations : pyval) : M (list pyval) :=
  n ← tick;
  let random_id := substring 0 16 (str_N (uuid4_int E n)) in
  n' ← tick;
  let now_time := datetime_now E n' in
  lift (process_organizations_with random_id now_time organizations).

(** [table.put_item(Item=item)]: the item replaces the one with its key. *)
Definition put_item (item : pyval) : M unit :=
  match item with
  | PDict d =>
      match item_key d with
      | Some k => t ← get_locations; set_locations (<[k := d]> t)
      | None => raise ValidationError
      end
  | _ => raise ValidationError
  end.

Definition data_exists (identifier_value : pyval) : M bool :=
  t ← get_locations;
  match scan_lookup_field t identifier_value with
  | [] => mret false
  | _ => mret true
  end.

(** [update_item(Key={"id": k}, "SET managingOrganization = :val")]: an item
    that is not there is created with the key and the attribute. *)
Definition update_item (k val : pyval) : M unit :=
  match k with
  | PStr k =>
      t ← get_locations;
      set_locations
        (<[k := dict_set "managingOrganization" val
                  (default [("id", PStr k)] (t !! k))]> t)
  | _ => raise ValidationError
  end.

Definition update_records : M unit :=
  let org_items := organisations E in
  t ← get_locations;
  let locations_items := (map_to_list t).*2 in
  forM_ locations_items (λ locations_item,
    let locations_id := dict_get locations_item "id" in
    if py_eq_str (dict_get locations_item "managingOrganization") "" then
      let locations_lookup_field_value := dict_get locations_item "lookup_field" in
      if py_truthy locations_lookup_field_value then
        forM_ org_items (λ org_item,
          org_identifier_value ←
            lift (py_get_default (dict_get_default org_item "identifier" (PDict []))
                                 "value" (PStr ""));
          if py_eq org_identifier_value locations_lookup_field_value then
            let org_id := dict_get org_item "id" in
            update_item locations_id org_id
          else mret tt)
      else mret tt
    else mret tt).

(** The writer loop of [write_to_dynamodb], one item. *)
Definition write_item (item : pyval) : M unit :=
  identifier_value ← lift (py_get_default item "lookup_field" (PDict []));
  found ← data_exists identifier_value;
  if (found : bool) then mret tt else put_item item.

(** The script passes [dynamodb_table_name], the [locations] table, as
    [table_name]; the state holds that table. *)
Definition write_to_dynamodb (processed_data : list pyval) : M unit :=
  _ ← forM_ processed_data write_item;
  update_records.

Definition read_excel_values (file_path : string) : M (list pyval) :=
  n ← tick;
  param1_values ← lift (read_excel_codes E n file_path);
  let param2_value :=
    PList [ PStr "OrganizationAffiliation:primary-organization";
            PStr "OrganizationAffiliation:participating-organization" ] in
  mret ((λ val, PDict [("primary-organization", val); ("_include", param2_value)])
          <$> param1_values).

(** The body shared by both fetch functions once a response is there. *)
Definition load_response (response_data : pyval) : M unit :=
  if py_truthy response_data then
    organizations ← lift (py_get_default response_data "entry" (PList []));
    processed_data ← process_organizations organizations;
    write_to_dynamodb processed_data
  else
    print failed_to_fetch.

(** The [for] loop of [fetch_organizations]; the result is the binding of
    [response_data] when the loop ends, [None] while it is unbound. *)
Fixpoint fetch_loop (api_endpoint : string) (headers : pyval)
    (odscode_params : list pyval) (response_data : option pyval)
  : M (option pyval) :=
  match odscode_params with
  | [] => mret response_data
  | odscode_param :: rest =>
      response_data ← read_ods_api api_endpoint headers odscode_param;
      _ ← load_response response_data;
      fetch_loop api_endpoint headers rest (Some response_data)
  end.

Definition fetch_organizations : M unit :=
  api_endpoint ← get_ssm ssm_base_api_url;
  let api_endpoint := api_endpoint +:+ "/fhir/OrganizationAffiliation?active=true" in
  headers ← get_headers;
  odscode_params ← read_excel_values odscode_file_path;
  last ← fetch_loop api_endpoint headers odscode_params None;
  match last with
  | None => raise UnboundLocalError
  | Some response_data =>
      if py_truthy response_data then print "Data fetched successfully."
      else print failed_to_fetch
  end.

Definition fetch_y_organizations : M unit :=
  api_endpoint_y ← get_ssm ssm_base_api_url;
  let api_endpoint_y := api_endpoint_y +:+ "/fhir/Organization?active=true" in
  let params_y := PDict [("type", PStr "RO209")] in
  headers ← get_headers;
  y_response_data ← read_ods_api api_endpoint_y headers params_y;
  _ ← load_response y_response_data;
  if py_truthy y_response_data then print "Y Data fetched successfully."
  else print failed_to_fetch.

Definition lambda_handler : M unit :=
  _ ← print "Fetching organizations data.";
  _ ← fetch_organizations;
  _ ← print "Fetching Y organizations data.";
  fetch_y_organizations.

End Script.

(** * Vocabulary of the statements

    The predicates, the named parts of the source expressions and the
    concrete inputs that the properties below are stated with. *)

Definition isinstance_str (v : pyval) : bool :=
  match v with PStr _ => true | _ => false end.

(** The fields that the normaliser title-cases hold text: every element of a
    [line] list is a str, and so are [city], [district] and [country]. *)
Definition well_typed_entry (kv : string * pyval) : bool :=
  match kv with
  | (key, PList l) =>
      if String.eqb key "line" then forallb isinstance_str l
      else negb (in_city_district_country key)
  | (key, value) =>
      if in_city_district_country key then isinstance_str value else true
  end.

Definition well_typed_address (d : dict) : Prop :=
  forallb well_typed_entry d = true.

(** What one entry of the address becomes: [Some] value stored under the same
    key, or [None] when the key is dropped. *)
Definition capitalized_value (key : string) (value : pyval) : outcome (option pyval) :=
  if String.eqb key "extension" then Ok None
  else
    match value with
    | PList l =>
        if String.eqb key "line" then
          lines ← mapM py_title l; Ok (Some (PList lines))
        else if in_city_district_country key then Raise AttributeError
        else Ok (Some value)
    | _ =>
        if in_city_district_country key then v ← py_title value; Ok (Some v)
        else Ok (Some value)
    end.

Definition example_address : dict :=
  [ ("line", PList [PStr "1 high street"; PStr "floor 2"]);
    ("city", PStr "leeds");
    ("district", PStr "west yorkshire");
    ("country", PStr "ENGLAND");
    ("postalCode", PStr "ls1 4ap");
    ("extension",
     PList [PDict [("url", PStr "uprn-ext");
                   ("extension",
                    PList [PDict [("url", PStr "type")];
                           PDict [("url", PStr "uprn");
                                  ("valueString", PStr "100023336956")]])]]) ].

(** The value of [capitalized_address] for an organisation. *)
Definition normalised_address (org : pyval) : outcome (list pyval) :=
  address ← py_get_default org "address" (PList []);
  address_items ← py_iter address;
  mapM capitalize_address_item (List.filter isinstance_dict address_items).

(** The value of [processed_attributes] when it is appended. *)
Definition canonical_record (random_id now_time : string)
    (lookup_field name : pyval) (capitalized_address : list pyval) (uprn : pyval)
  : dict :=
  let processed_attributes : dict :=
    [ ("id", PStr random_id);
      ("lookup_field", lookup_field);
      ("active", PStr "true");
      ("name", name);
      ("Address", PList capitalized_address);
      ("createdDateTime", PStr now_time);
      ("createdBy", PStr "Admin");
      ("modifiedBy", PStr "Admin");
      ("modifiedDateTime", PStr now_time);
      ("UPRN", uprn);
      ("position", PDict [("longitude", PStr ""); ("latitude", PStr "")]);
      ("managingOrganization", PStr "") ] in
  if py_eq_str uprn "NA" then dict_pop "UPRN" processed_attributes
  else processed_attributes.

(** The records one entry contributes. *)
Definition entry_records (random_id now_time : string) (resvars : pyval)
  : outcome (list pyval) :=
  org ← py_get resvars "resource";
  resource_type ← py_get org "resourceType";
  if py_eq_str resource_type "Organization" then
    capitalized_address ← normalised_address org;
    lookup_field ← py_get org "id";
    name ← py_get org "name";
    name ← py_title name;
    Ok [PDict (canonical_record random_id now_time lookup_field name
                 capitalized_address (try_except (uprn_path org) (PStr "NA")))]
  else Ok [].

(** The state a call of [process_organizations] ends in: two draws from the
    outside world, nothing else. *)
Definition after_draws (s : state) : state :=
  {| locations := locations s; stdout := stdout s; sent := sent s;
     clock := S (S (clock s)) |}.

Definition drawn_id (E : env) (s : state) : string :=
  substring 0 16 (str_N (uuid4_int E (clock s))).

Definition drawn_time (E : env) (s : state) : string :=
  datetime_now E (S (clock s)).

Definition example_org : dict :=
  [ ("resourceType", PStr "Organization");
    ("id", PStr "ABC123");
    ("name", PStr "st mary clinic");
    ("address", PList [PDict example_address]) ].

Definition example_entry : dict :=
  [ ("fullUrl", PStr "https://directory.example/Organization/ABC123");
    ("resource", PDict example_org) ].

Definition example_env : env :=
  {| ssm_get_parameter := λ _ _, Ok "https://directory.example";
     requests_post := λ _ _ _ _,
       HttpResponse 200 "" (inl (PDict [("access_token", PStr "tok")]));
     requests_get := λ _ _,
       HttpResponse 200 "" (inl (PDict [("entry", PList [PDict example_entry])]));
     read_excel_codes := λ _ _, Ok [PStr "A1"];
     uuid4_int := λ _, 123456789012345678901234567890%N;
     datetime_now := λ _, "01-01-2024 00:00:00";
     organisations :=
       [ [("id", PStr "org-1"); ("identifier", PDict [("value", PStr "ABC123")])] ] |}.

Definition empty_state : state :=
  {| locations := ∅; stdout := []; sent := []; clock := 0 |}.

(** An organisation whose path exists down to [extension[1]], which has no
    [valueString]. *)
Definition org_without_value_string : dict :=
  [ ("resourceType", PStr "Organization");
    ("id", PStr "ABC123");
    ("name", PStr "st mary clinic");
    ("address",
     PList [PDict [ ("city", PStr "leeds");
                    ("extension",
                     PList [PDict [("url", PStr "uprn-ext");
                                   ("extension",
                                    PList [PDict [("url", PStr "type")];
                                           PDict [("url", PStr "uprn")]])]]) ]]) ].

(** [del d[k]] *)
Definition dict_remove (k : string) (d : dict) : dict :=
  List.filter (λ kv, negb (String.eqb kv.1 k)) d.

(** The entry with the UPRN path cut: [extension] is deleted from the first
    address of its organisation. *)
Definition without_uprn_path (entry : dict) : dict :=
  match dict_lookup "resource" entry with
  | Some (PDict org) =>
      match dict_lookup "address" org with
      | Some (PList (PDict address0 :: rest)) =>
          dict_set "resource"
            (PDict (dict_set "address"
                      (PList (PDict (dict_remove "extension" address0) :: rest))
                      org))
            entry
      | _ => entry
      end
  | _ => entry
  end.

(** A property of the state that a computation keeps, however it ends. *)
Definition keeps (I : state → Prop) {A} (c : M A) : Prop :=
  ∀ s r s', I s → c s = (r, s') → I s'.

(** A computation that returns normally from every state in [I], and ends in
    a state in [I]. *)
Definition completes (I : state → Prop) {A} (c : M A) : Prop :=
  ∀ s, I s → ∃ a s', c s = (Ok a, s') ∧ I s'.

(** The store keeps every item under its own key. *)
Definition wf_table (t : gmap string dict) : Prop :=
  ∀ k item, t !! k = Some item → dict_lookup "id" item = Some (PStr k).

(** No two records of the table share a [lookup_field] value. *)
Definition unique_lookup (t : gmap string dict) : Prop :=
  ∀ k1 k2 item1 item2 v,
    t !! k1 = Some item1 → t !! k2 = Some item2 →
    dict_lookup "lookup_field" item1 = Some v →
    dict_lookup "lookup_field" item2 = Some v →
    k1 = k2.

(** [org_item.get("identifier", {}).get("value", "")] *)
Definition org_identifier_value (org_item : dict) : outcome pyval :=
  py_get_default (dict_get_default org_item "identifier" (PDict [])) "value" (PStr "").

Definition example_record : dict :=
  canonical_record "1234567890123456" "01-01-2024 00:00:00"
    (PStr "ABC123") (PStr "St Mary Clinic") [] (PStr "100023336956").

Definition example_record_again : dict :=
  canonical_record "9999999999999999" "02-01-2024 00:00:00"
    (PStr "ABC123") (PStr "St Mary Clinic") [] (PStr "100023336956").

(** [item'] is [item] with [managingOrganization] set to the [id] of an
    organisations entry whose identifier value equals the [lookup_field] of
    [item]. *)
Definition linked (orgs : list dict) (item item' : dict) : Prop :=
  ∃ (org : dict) (v : pyval),
    org ∈ orgs ∧
    org_identifier_value org = Ok v ∧
    py_eq v (dict_get item "lookup_field") = true ∧
    item' = dict_set "managingOrganization" (dict_get org "id") item.

(** What the cross-linker may have done to table [t] when the table is [t']. *)
Definition cross_linked (orgs : list dict) (t t' : gmap string dict) : Prop :=
  ∀ k,
    match t !! k with
    | None => t' !! k = None
    | Some item =>
        ∃ item', t' !! k = Some item' ∧ (item' = item ∨ linked orgs item item')
    end.

Definition linked_state : state :=
  {| locations := {[ "1234567890123456" := example_record ]};
     stdout := []; sent := []; clock := 0 |}.

(** Nothing but [read_ods_api] sends a request. *)
Definition sent_is (l : list request) (s : state) : Prop := sent s = l.

(** Printed lines are only ever appended. *)
Definition stdout_extends (base : list string) (s : state) : Prop :=
  ∃ out, stdout s = base ++ out.

Definition make_request (api_endpoint : string) (headers params : pyval) : request :=
  {| req_endpoint := api_endpoint; req_headers := headers; req_params := params |}.

(** The parameters of the batch read for one spreadsheet code. *)
Definition odscode_param (code : pyval) : pyval :=
  PDict [ ("primary-organization", code);
          ("_include",
           PList [ PStr "OrganizationAffiliation:primary-organization";
                   PStr "OrganizationAffiliation:participating-organization" ]) ].

(** Three worlds that differ from [example_env] in one answer each. *)
Definition env_no_token : env :=
  {| ssm_get_parameter := ssm_get_parameter example_env;
     requests_post := λ _ _ _ _,
       HttpResponse 401 "" (inl (PDict [("error", PStr "invalid_client")]));
     requests_get := requests_get example_env;
     read_excel_codes := read_excel_codes example_env;
     uuid4_int := uuid4_int example_env;
     datetime_now := datetime_now example_env;
     organisations := organisations example_env |}.

Definition env_no_name : env :=
  {| ssm_get_parameter := ssm_get_parameter example_env;
     requests_post := requests_post example_env;
     requests_get := λ _ _,
       HttpResponse 200 ""
         (inl (PDict [("entry",
                       PList [PDict [("resource",
                                      PDict [("resourceType", PStr "Organization");
                                             ("id", PStr "ABC123")])]])]));
     read_excel_codes := read_excel_codes example_env;
     uuid4_int := uuid4_int example_env;
     datetime_now := datetime_now example_env;
     organisations := organisations example_env |}.

Definition env_no_codes : env :=
  {| ssm_get_parameter := ssm_get_parameter example_env;
     requests_post := requests_post example_env;
     requests_get := requests_get example_env;
     read_excel_codes := λ _ _, Ok [];
     uuid4_int := uuid4_int example_env;
     datetime_now := datetime_now example_env;
     organisations := organisations example_env |}.

(** The shape of the data on which the normaliser does not raise. *)
Definition well_formed_address_items (items : list pyval) : bool :=
  forallb (λ a, match a with
                | PDict d => forallb well_typed_entry d
                | _ => true
                end) items.

Definition well_formed_org (org : dict) : bool :=
  if py_eq_str (dict_get org "resourceType") "Organization" then
    isinstance_str (dict_get org "name") &&
    match dict_lookup "address" org with
    | None => true
    | Some (PList items) => well_formed_address_items items
    | Some _ => false
    end
  else true.

Definition well_formed_entry (entry : pyval) : bool :=
  match entry with
  | PDict e =>
      match dict_lookup "resource" e with
      | Some (PDict org) => well_formed_org org
      | _ => false
      end
  | _ => false
  end.

Definition well_formed_bundle (body : pyval) : bool :=
  match body with
  | PDict d =>
      match dict_lookup "entry" d with
      | None => true
      | Some (PList entries) => forallb well_formed_entry entries
      | Some _ => false
      end
  | _ => false
  end.

Definition wf_state (s : state) : Prop := wf_table (locations s).

(** A directory that fails whenever the count of external calls so far is
    even: the request raises, or the answer is a 503.  Of the three batch
    reads the first raises, the second succeeds and the third is a 503, and
    so is the read of the second run. *)
Definition flaky_env : env :=
  {| ssm_get_parameter := ssm_get_parameter example_env;
     requests_post := requests_post example_env;
     requests_get := λ n r,
       if Nat.even n then
         if (n <? 8)%nat then HttpError "connection reset"
         else HttpResponse 503 "unavailable" (inr "Expecting value")
       else requests_get example_env n r;
     read_excel_codes := λ _ _, Ok [PStr "A1"; PStr "B2"; PStr "C3"];
     uuid4_int := uuid4_int example_env;
     datetime_now := datetime_now example_env;
     organisations := organisations example_env |}.

(** The entries [capitalize_address_item] stores, in the order of the input:
    each key with its normalised value, [extension] left out. *)
Fixpoint capitalized_pairs (d : dict) : outcome dict :=
  match d with
  | [] => Ok []
  | (key, value) :: rest =>
      r ← capitalized_value key value;
      pairs ← capitalized_pairs rest;
      Ok (match r with Some v => (key, v) :: pairs | None => pairs end)
  end.

(** [resvars.get("resource").get("resourceType") == "Organization"], false
    when one of the two [get]s raises. *)
Definition is_organization (resvars : pyval) : bool :=
  match py_get resvars "resource" ≫= λ org, py_get org "resourceType" with
  | Ok resource_type => py_eq_str resource_type "Organization"
  | Raise _ => false
  end.

(** The state [s] with table [t]. *)
Definition with_locations (s : state) (t : gmap string dict) : state :=
  {| locations := t; stdout := stdout s; sent := sent s; clock := clock s |}.

(** The guard of the cross-linker: the record is not linked yet and has a
    truthy [lookup_field]. *)
Definition link_candidate (item : dict) : bool :=
  py_eq_str (dict_get item "managingOrganization") "" &&
  py_truthy (dict_get item "lookup_field").

(** One turn of the inner loop of [update_records] on the record [cur], for
    a record whose [lookup_field] is [lookup_field_value]. *)
Definition link_step (lookup_field_value : pyval) (cur org_item : dict) : dict :=
  match org_identifier_value org_item with
  | Ok org_identifier_value =>
      if py_eq org_identifier_value lookup_field_value
      then dict_set "managingOrganization" (dict_get org_item "id") cur
      else cur
  | Raise _ => cur
  end.

(** What the cross-linker makes of one record. *)
Definition link_item (org_items : list dict) (item : dict) : dict :=
  if link_candidate item
  then fold_left (link_step (dict_get item "lookup_field")) org_items item
  else item.

(** The body of the inner loop of [update_records]. *)
Definition link_org_body (locations_id locations_lookup_field_value : pyval)
    (org_item : dict) : M unit :=
  org_identifier_value ←
    lift (py_get_default (dict_get_default org_item "identifier" (PDict []))
                         "value" (PStr ""));
  if py_eq org_identifier_value locations_lookup_field_value then
    let org_id := dict_get org_item "id" in
    update_item locations_id org_id
  else mret tt.

(** The body of the outer loop of [update_records]. *)
Definition link_body (E : env) (locations_item : dict) : M unit :=
  let locations_id := dict_get locations_item "id" in
  if py_eq_str (dict_get locations_item "managingOrganization") "" then
    let locations_lookup_field_value := dict_get locations_item "lookup_field" in
    if py_truthy locations_lookup_field_value then
      forM_ (organisations E) (link_org_body locations_id locations_lookup_field_value)
    else mret tt
  else mret tt.

(** A second organisation, to go with [example_entry] in one response. *)
Definition second_entry : dict :=
  [("resource",
    PDict [ ("resourceType", PStr "Organization"); ("id", PStr "XYZ789");
            ("name", PStr "the other surgery") ])].

Definition two_org_bundle : pyval :=
  PDict [("entry", PList [PDict example_entry; PDict second_entry])].

(** The state [s] after [n] more external calls. *)
Definition ticks (n : nat) (s : state) : state :=
  {| locations := locations s; stdout := stdout s; sent := sent s;
     clock := n + clock s |}.

(** The state [s] with one more printed line. *)
Definition printed (line : string) (s : state) : state :=
  {| locations := locations s; stdout := stdout s ++ [line]; sent := sent s;
     clock := clock s |}.

(** * Properties *)

Example title_example : title "st mary clinic" = "St Mary Clinic".
Proof. reflexivity. Qed.

Example title_mixed : title "nHS o'neil 2nd fLOOR" = "Nhs O'Neil 2Nd Floor".
Proof. reflexivity. Qed.

(** ** Dictionaries *)

Lemma dict_lookup_set (k k' : string) (v : pyval) (d : dict) :
  dict_lookup k (dict_set k' v d) =
  if String.eqb k' k then Some v else dict_lookup k d.
Proof.
  induction d as [| [k0 v0] d IH]; simpl.
  - reflexivity.
  - destruct (String.eqb k0 k') eqn:Hk0; simpl.
    + apply String.eqb_eq in Hk0 as ->. by destruct (String.eqb k' k).
    + rewrite IH. destruct (String.eqb k' k) eqn:Hk; [| done].
      apply String.eqb_eq in Hk as ->. by rewrite Hk0.
Qed.

Lemma dict_lookup_set_eq (k : string) (v : pyval) (d : dict) :
  dict_lookup k (dict_set k v d) = Some v.
Proof. by rewrite dict_lookup_set, String.eqb_refl. Qed.

Lemma dict_lookup_set_ne (k k' : string) (v : pyval) (d : dict) :
  k' ≠ k → dict_lookup k (dict_set k' v d) = dict_lookup k d.
Proof.
  intros Hne. rewrite dict_lookup_set.
  destruct (String.eqb k' k) eqn:H; [| done].
  by apply String.eqb_eq in H.
Qed.

Lemma dict_lookup_not_in (k : string) (d : dict) :
  k ∉ keys d → dict_lookup k d = None.
Proof.
  induction d as [| [k0 v0] d IH]; simpl; [done |].
  intros Hnotin. apply not_elem_of_cons in Hnotin as [Hne Hnotin].
  destruct (String.eqb k0 k) eqn:H.
  - apply String.eqb_eq in H. congruence.
  - by apply IH.
Qed.

Lemma dict_lookup_elem_of (k : string) (v : pyval) (d : dict) :
  dict_lookup k d = Some v → (k, v) ∈ d.
Proof.
  induction d as [| [k0 v0] d IH]; simpl; [done |].
  destruct (String.eqb k0 k) eqn:H.
  - apply String.eqb_eq in H as ->. intros [= ->]. left.
  - intros Hl. right. by apply IH.
Qed.

(** ** Outcomes *)

Lemma bind_Ok {A B} (c : outcome A) (f : A → outcome B) (b : B) :
  c ≫= f = Ok b → ∃ a, c = Ok a ∧ f a = Ok b.
Proof. destruct c as [a | e]; simpl; [eauto | discriminate]. Qed.

Ltac inv_bind H :=
  let a := fresh "a" in
  let Ha := fresh "Ha" in
  apply bind_Ok in H as (a & Ha & H).

Tactic Notation "bind_inv" hyp(H) "as" ident(a) ident(Ha) :=
  apply bind_Ok in H as (a & Ha & H).

Lemma mapM_Ok_Forall2 {A B} (f : A → outcome B) (l : list A) (l' : list B) :
  mapM f l = Ok l' ↔ Forall2 (λ x y, f x = Ok y) l l'.
Proof.
  revert l'. induction l as [| x l IH]; intros l'; simpl.
  - split.
    + intros [= <-]. constructor.
    + intros H. by inversion H.
  - split.
    + intros H. inv_bind H. inv_bind H. injection H as <-.
      constructor; [done |]. by apply IH.
    + intros H. inversion H as [| ? y ? ys Hx Hl]; subst.
      rewrite Hx. simpl. apply IH in Hl. rewrite Hl. done.
Qed.

(** ** C3: address normalisation *)

Lemma capitalize_entry_value (acc : dict) (key : string) (value : pyval) :
  capitalize_entry acc (key, value) =
  r ← capitalized_value key value;
  Ok (match r with Some v => dict_set key v acc | None => acc end).
Proof.
  unfold capitalize_entry, capitalized_value, capitalize_line.
  destruct (String.eqb key "extension") eqn:Hext.
  - apply String.eqb_eq in Hext as ->. by destruct value.
  - destruct (String.eqb key "line") eqn:Hline.
    + apply String.eqb_eq in Hline as ->.
      destruct value; simpl; try done.
      by destruct (mapM py_title l).
    + simpl. destruct (in_city_district_country key) eqn:Hcdc.
      * destruct value; simpl; done.
      * destruct (String.eqb key "postalCode"); by destruct value.
Qed.

Lemma foldlM_cons {A B} (f : B → A → outcome B) (acc : B) (x : A) (r : list A) :
  foldlM f acc (x :: r) = f acc x ≫= λ acc', foldlM f acc' r.
Proof. reflexivity. Qed.

Lemma capitalize_fold_lookup (d : dict) : ∀ (acc d' : dict) (k : string),
  NoDup (keys d) →
  foldlM capitalize_entry acc d = Ok d' →
  dict_lookup k d' =
  match dict_lookup k d with
  | Some v =>
      match capitalized_value k v with
      | Ok (Some v') => Some v'
      | _ => dict_lookup k acc
      end
  | None => dict_lookup k acc
  end.
Proof.
  induction d as [| [k0 v0] d IH]; intros acc d' k Hnodup Hfold.
  - simpl in *. by injection Hfold as <-.
  - apply NoDup_cons in Hnodup as [Hk0 Hnodup].
    rewrite foldlM_cons, capitalize_entry_value in Hfold.
    inv_bind Hfold. inv_bind Ha. injection Ha as <-.
    rewrite (IH _ _ k Hnodup Hfold).
    cbn [dict_lookup]. destruct (String.eqb k0 k) eqn:Hk.
    + apply String.eqb_eq in Hk as ->.
      rewrite (dict_lookup_not_in k d Hk0), Ha0.
      destruct a0 as [v' |]; [| done]. apply dict_lookup_set_eq.
    + assert (k0 ≠ k) as Hne by (intros ->; by rewrite String.eqb_refl in Hk).
      assert (dict_lookup k (match a0 with
                             | Some v => dict_set k0 v acc
                             | None => acc
                             end) = dict_lookup k acc) as ->.
      { destruct a0; [by apply dict_lookup_set_ne | done]. }
      done.
Qed.

Lemma mapM_title_total (l : list pyval) :
  forallb isinstance_str l = true → ∃ l', mapM py_title l = Ok l'.
Proof.
  induction l as [| v l IH]; simpl; [eauto |].
  intros [Hv Hl]%andb_true_iff. destruct (IH Hl) as [l' ->].
  destruct v; try discriminate. simpl. eauto.
Qed.

Lemma capitalized_value_total (key : string) (value : pyval) :
  well_typed_entry (key, value) = true → ∃ r, capitalized_value key value = Ok r.
Proof.
  unfold well_typed_entry, capitalized_value. intros Hty.
  destruct (String.eqb key "extension"); [eauto |].
  destruct value; try (destruct (in_city_district_country key); simpl; eauto; discriminate).
  destruct (String.eqb key "line").
  - destruct (mapM_title_total l Hty) as [l' ->]. simpl. eauto.
  - destruct (in_city_district_country key); simpl; eauto; discriminate.
Qed.

Lemma capitalize_fold_total (d : dict) : ∀ acc : dict,
  well_typed_address d → ∃ d', foldlM capitalize_entry acc d = Ok d'.
Proof.
  unfold well_typed_address.
  induction d as [| [k0 v0] d IH]; intros acc Hty.
  - simpl. eauto.
  - cbn [forallb] in Hty. apply andb_true_iff in Hty as [Hty0 Hty].
    rewrite foldlM_cons, capitalize_entry_value.
    destruct (capitalized_value_total _ _ Hty0) as [r ->]. simpl. by apply IH.
Qed.

Lemma mapM_title_strs (lines : list string) :
  mapM py_title (PStr <$> lines) = Ok ((λ s, PStr (title s)) <$> lines).
Proof.
  induction lines as [| s lines IH]; [done |].
  rewrite !fmap_cons. cbn [mapM]. by rewrite IH.
Qed.

Lemma forallb_isinstance_str (l : list pyval) :
  forallb isinstance_str l = true → ∃ lines, l = PStr <$> lines.
Proof.
  induction l as [| v l IH]; simpl.
  - by exists [].
  - intros [Hv Hl]%andb_true_iff. destruct (IH Hl) as [lines ->].
    destruct v; try discriminate. by exists (s :: lines).
Qed.

Lemma well_typed_lookup (d : dict) (k : string) (v : pyval) :
  well_typed_address d → dict_lookup k d = Some v → well_typed_entry (k, v) = true.
Proof.
  intros Hty Hl. apply dict_lookup_elem_of in Hl.
  unfold well_typed_address in Hty. rewrite forallb_forall in Hty.
  apply Hty. by apply list_elem_of_In.
Qed.

(** C3.  Normalising an address item (a dict whose text fields hold text)
    succeeds; in the result every element of [line] and the values of [city],
    [district] and [country] are title-cased, [postalCode] is the value the
    input had, [extension] is absent, and no key is invented. *)
Theorem capitalize_address_item_normalises (address_item : dict) :
  NoDup (keys address_item) →
  well_typed_address address_item →
  ∃ capitalized_item : dict,
    capitalize_address_item (PDict address_item) = Ok (PDict capitalized_item) ∧
    (∀ l, dict_lookup "line" address_item = Some (PList l) →
       ∃ lines, l = PStr <$> lines ∧
         dict_lookup "line" capitalized_item
         = Some (PList ((λ s, PStr (title s)) <$> lines))) ∧
    (∀ k v, k ∈ ["city"; "district"; "country"] →
       dict_lookup k address_item = Some v →
       ∃ s, v = PStr s ∧ dict_lookup k capitalized_item = Some (PStr (title s))) ∧
    dict_lookup "postalCode" capitalized_item = dict_lookup "postalCode" address_item ∧
    dict_lookup "extension" capitalized_item = None ∧
    (∀ k, dict_lookup k address_item = None → dict_lookup k capitalized_item = None).
Proof.
  intros Hnodup Hty.
  destruct (capitalize_fold_total address_item [] Hty) as [d' Hfold].
  exists d'. unfold capitalize_address_item. simpl. rewrite Hfold. simpl.
  split; [done |].
  pose proof (λ k, capitalize_fold_lookup address_item [] d' k Hnodup Hfold) as Hlk.
  repeat split.
  - intros l Hl. pose proof (well_typed_lookup _ _ _ Hty Hl) as Hl_ty. simpl in Hl_ty.
    destruct (forallb_isinstance_str l Hl_ty) as [lines ->].
    exists lines. split; [done |].
    rewrite Hlk, Hl. unfold capitalized_value. simpl.
    by rewrite mapM_title_strs.
  - intros k v Hk Hv. pose proof (well_typed_lookup _ _ _ Hty Hv) as Hv_ty.
    rewrite Hlk, Hv.
    assert (in_city_district_country k = true ∧ String.eqb k "extension" = false
            ∧ String.eqb k "line" = false) as (Hcdc & Hext & Hline).
    { set_unfold in Hk. destruct Hk as [-> | [-> | [-> | []]]]; done. }
    unfold well_typed_entry in Hv_ty. unfold capitalized_value.
    rewrite Hext, Hline, ?Hcdc in *.
    destruct v; simpl in *; try discriminate. eauto.
  - rewrite Hlk. destruct (dict_lookup "postalCode" address_item) as [v |]; [| done].
    by destruct v.
  - rewrite Hlk. by destruct (dict_lookup "extension" address_item).
  - intros k Hk. by rewrite Hlk, Hk.
Qed.

Lemma capitalize_address_item_normalises_witness :
  ∃ capitalized_item : dict,
    capitalize_address_item (PDict example_address) = Ok (PDict capitalized_item) ∧
    (∀ l, dict_lookup "line" example_address = Some (PList l) →
       ∃ lines, l = PStr <$> lines ∧
         dict_lookup "line" capitalized_item
         = Some (PList ((λ s, PStr (title s)) <$> lines))) ∧
    (∀ k v, k ∈ ["city"; "district"; "country"] →
       dict_lookup k example_address = Some v →
       ∃ s, v = PStr s ∧ dict_lookup k capitalized_item = Some (PStr (title s))) ∧
    dict_lookup "postalCode" capitalized_item = dict_lookup "postalCode" example_address ∧
    dict_lookup "extension" capitalized_item = None ∧
    (∀ k, dict_lookup k example_address = None → dict_lookup k capitalized_item = None).
Proof.
  apply (capitalize_address_item_normalises example_address).
  - apply (bool_decide_unpack _). vm_compute. reflexivity.
  - reflexivity.
Defined.

Example capitalize_example_address :
  capitalize_address_item (PDict example_address)
  = Ok (PDict [ ("line", PList [PStr "1 High Street"; PStr "Floor 2"]);
                ("city", PStr "Leeds");
                ("district", PStr "West Yorkshire");
                ("country", PStr "England");
                ("postalCode", PStr "ls1 4ap") ]).
Proof. reflexivity. Qed.

(** Outside the typed case: a [line] that is not a list is copied as it is,
    and a [city] that is not a str makes the call raise. *)
Example capitalize_line_not_a_list :
  capitalize_address_item (PDict [("line", PStr "1 high street")])
  = Ok (PDict [("line", PStr "1 high street")]).
Proof. reflexivity. Qed.

Example capitalize_city_not_a_str :
  capitalize_address_item (PDict [("city", PNone)]) = Raise AttributeError.
Proof. reflexivity. Qed.

(** ** The record normaliser, entry by entry *)

Lemma process_entry_records (random_id now_time : string)
    (processed_data : list pyval) (resvars : pyval) :
  process_entry random_id now_time processed_data resvars =
  records ← entry_records random_id now_time resvars;
  Ok (processed_data ++ records).
Proof.
  unfold process_entry, entry_records, normalised_address, canonical_record.
  destruct (py_get resvars "resource") as [org |]; [simpl | done].
  destruct (py_get org "resourceType") as [rt |]; [simpl | done].
  destruct (py_eq_str rt "Organization"); [| simpl; by rewrite app_nil_r].
  destruct (py_get_default org "address" (PList [])) as [address |]; [simpl | done].
  destruct (py_iter address) as [items |]; [simpl | done].
  destruct (mapM capitalize_address_item _) as [addr |]; [simpl | done].
  destruct (py_get org "id") as [lf |]; [simpl | done].
  destruct (py_get org "name") as [name |]; [simpl | done].
  by destruct (py_title name).
Qed.

Lemma process_fold_records (random_id now_time : string) (entries : list pyval) :
  ∀ processed_data : list pyval,
  foldlM (process_entry random_id now_time) processed_data entries =
  per_entry ← mapM (entry_records random_id now_time) entries;
  Ok (processed_data ++ concat per_entry).
Proof.
  induction entries as [| e entries IH]; intros acc.
  - simpl. by rewrite app_nil_r.
  - rewrite foldlM_cons, process_entry_records. cbn [mapM].
    destruct (entry_records random_id now_time e) as [recs |]; [simpl | done].
    rewrite IH.
    destruct (mapM (entry_records random_id now_time) entries); [simpl | done].
    by rewrite app_assoc.
Qed.

(** The output of [process_organizations] is the concatenation, in order, of
    what each entry contributes. *)
Lemma process_organizations_with_records (random_id now_time : string)
    (entries : list pyval) :
  process_organizations_with random_id now_time (PList entries) =
  per_entry ← mapM (entry_records random_id now_time) entries;
  Ok (concat per_entry).
Proof.
  unfold process_organizations_with. simpl. by rewrite process_fold_records.
Qed.

Lemma mapM_app {A B} (f : A → outcome B) (l1 l2 : list A) :
  mapM f (l1 ++ l2) = r1 ← mapM f l1; r2 ← mapM f l2; Ok (r1 ++ r2).
Proof.
  induction l1 as [| x l1 IH]; simpl.
  - by destruct (mapM f l2).
  - destruct (f x); [simpl | done]. rewrite IH.
    destruct (mapM f l1); [simpl | done]. by destruct (mapM f l2).
Qed.

Lemma process_organizations_run (E : env) (organizations : pyval) (s : state) :
  process_organizations E organizations s =
  (process_organizations_with (drawn_id E s) (drawn_time E s) organizations,
   after_draws s).
Proof. reflexivity. Qed.

Lemma canonical_record_fields (random_id now_time : string)
    (lookup_field name : pyval) (addr : list pyval) (uprn : pyval) :
  let r := canonical_record random_id now_time lookup_field name addr uprn in
  dict_lookup "id" r = Some (PStr random_id) ∧
  dict_lookup "lookup_field" r = Some lookup_field ∧
  dict_lookup "name" r = Some name ∧
  dict_lookup "Address" r = Some (PList addr) ∧
  dict_lookup "createdDateTime" r = Some (PStr now_time) ∧
  dict_lookup "modifiedDateTime" r = Some (PStr now_time) ∧
  dict_lookup "managingOrganization" r = Some (PStr "") ∧
  dict_lookup "UPRN" r = if py_eq_str uprn "NA" then None else Some uprn.
Proof.
  unfold canonical_record. destruct (py_eq_str uprn "NA"); simpl; repeat split.
Qed.

Lemma entry_records_shape (random_id now_time : string) (resvars : pyval)
    (records : list pyval) :
  entry_records random_id now_time resvars = Ok records →
  records = [] ∨
  ∃ org lookup_field name addr,
    py_get resvars "resource" = Ok org ∧
    records = [PDict (canonical_record random_id now_time lookup_field name addr
                        (try_except (uprn_path org) (PStr "NA")))].
Proof.
  unfold entry_records. intros H.
  inv_bind H. inv_bind H. destruct (py_eq_str a0 "Organization").
  - inv_bind H. inv_bind H. inv_bind H. inv_bind H. injection H as <-.
    right. eauto 10.
  - injection H as <-. by left.
Qed.

Lemma process_organizations_with_canonical (random_id now_time : string)
    (organizations : pyval) (records : list pyval) :
  process_organizations_with random_id now_time organizations = Ok records →
  Forall (λ r, ∃ lookup_field name addr uprn,
            r = PDict (canonical_record random_id now_time lookup_field name addr uprn))
         records.
Proof.
  unfold process_organizations_with. intros H. inv_bind H.
  rewrite process_fold_records in H. inv_bind H. injection H as <-. simpl.
  clear Ha. rename a0 into per_entry, a into entries.
  apply mapM_Ok_Forall2 in Ha0.
  induction Ha0 as [| e recs entries per_entry He _ IH]; simpl; [constructor |].
  apply Forall_app. split; [| done].
  destruct (entry_records_shape _ _ _ _ He) as [-> | (org & lf & name & addr & _ & ->)].
  - constructor.
  - repeat constructor. eauto.
Qed.

(** ** C9: one identifier and one timestamp per call *)

(** C9.  All records that one call of [process_organizations] returns carry
    the same [id], [createdDateTime] and [modifiedDateTime]: the identifier
    and the time are drawn once, before the loop, and the call makes exactly
    two draws however many entries it is given. *)
Theorem process_organizations_shares_id (E : env) (organizations : pyval)
    (s s' : state) (records : list pyval) :
  process_organizations E organizations s = (Ok records, s') →
  clock s' = S (S (clock s)) ∧
  ∀ r, r ∈ records →
    ∃ d, r = PDict d ∧
      dict_lookup "id" d = Some (PStr (drawn_id E s)) ∧
      dict_lookup "createdDateTime" d = Some (PStr (drawn_time E s)) ∧
      dict_lookup "modifiedDateTime" d = Some (PStr (drawn_time E s)).
Proof.
  rewrite process_organizations_run. intros [= Hwith <-]. split; [done |].
  apply process_organizations_with_canonical in Hwith.
  rewrite Forall_forall in Hwith. intros r Hr.
  destruct (Hwith r Hr) as (lf & name & addr & uprn & ->).
  eexists. split; [done |].
  pose proof (canonical_record_fields (drawn_id E s) (drawn_time E s) lf name addr uprn)
    as Hf. simpl in Hf. tauto.
Qed.

(** ** C7: the end-to-end scenario *)

(** C7.  An entry whose organisation has id [ABC123], name [st mary clinic]
    and one address holding [100023336956] on the UPRN path yields exactly one
    record, with name [St Mary Clinic], that UPRN and an empty
    [managingOrganization]; the table is not touched. *)
Theorem process_organizations_st_mary (E : env) (s : state)
    (entry org address0 : dict) :
  dict_lookup "resource" entry = Some (PDict org) →
  dict_lookup "resourceType" org = Some (PStr "Organization") →
  dict_lookup "id" org = Some (PStr "ABC123") →
  dict_lookup "name" org = Some (PStr "st mary clinic") →
  dict_lookup "address" org = Some (PList [PDict address0]) →
  uprn_path (PDict org) = Ok (PStr "100023336956") →
  well_typed_address address0 →
  ∃ (r : dict) (s' : state),
    process_organizations E (PList [PDict entry]) s = (Ok [PDict r], s') ∧
    dict_lookup "lookup_field" r = Some (PStr "ABC123") ∧
    dict_lookup "name" r = Some (PStr "St Mary Clinic") ∧
    dict_lookup "UPRN" r = Some (PStr "100023336956") ∧
    dict_lookup "managingOrganization" r = Some (PStr "") ∧
    locations s' = locations s.
Proof.
  intros Hres Hrt Hid Hname Haddr Huprn Hty.
  destruct (capitalize_fold_total address0 [] Hty) as [a' Ha'].
  rewrite process_organizations_run, process_organizations_with_records.
  cbn [mapM]. unfold entry_records, normalised_address. simpl.
  rewrite Hres. simpl. rewrite Hrt. simpl. rewrite Haddr. simpl.
  unfold capitalize_address_item at 1. simpl. rewrite Ha'. simpl.
  rewrite Hid, Hname, Huprn. simpl.
  eexists _, _. split; [reflexivity |].
  pose proof (canonical_record_fields (drawn_id E s) (drawn_time E s)
                (PStr "ABC123") (PStr "St Mary Clinic") [PDict a']
                (PStr "100023336956")) as Hf.
  simpl in Hf. tauto.
Qed.

Lemma process_organizations_st_mary_witness :
  ∃ (r : dict) (s' : state),
    process_organizations example_env (PList [PDict example_entry]) empty_state
    = (Ok [PDict r], s') ∧
    dict_lookup "lookup_field" r = Some (PStr "ABC123") ∧
    dict_lookup "name" r = Some (PStr "St Mary Clinic") ∧
    dict_lookup "UPRN" r = Some (PStr "100023336956") ∧
    dict_lookup "managingOrganization" r = Some (PStr "") ∧
    locations s' = locations empty_state.
Proof.
  apply (process_organizations_st_mary example_env empty_state
           example_entry example_org example_address); reflexivity.
Defined.

Lemma process_organizations_shares_id_witness :
  clock (after_draws empty_state) = 2 ∧
  ∀ r, r ∈ [PDict (canonical_record "1234567890123456" "01-01-2024 00:00:00"
                     (PStr "ABC123") (PStr "St Mary Clinic")
                     [PDict [ ("line", PList [PStr "1 High Street"; PStr "Floor 2"]);
                              ("city", PStr "Leeds");
                              ("district", PStr "West Yorkshire");
                              ("country", PStr "England");
                              ("postalCode", PStr "ls1 4ap") ]]
                     (PStr "100023336956"));
            PDict (canonical_record "1234567890123456" "01-01-2024 00:00:00"
                     (PStr "ABC123") (PStr "St Mary Clinic")
                     [PDict [ ("line", PList [PStr "1 High Street"; PStr "Floor 2"]);
                              ("city", PStr "Leeds");
                              ("district", PStr "West Yorkshire");
                              ("country", PStr "England");
                              ("postalCode", PStr "ls1 4ap") ]]
                     (PStr "100023336956"))] →
    ∃ d, r = PDict d ∧
      dict_lookup "id" d = Some (PStr (drawn_id example_env empty_state)) ∧
      dict_lookup "createdDateTime" d = Some (PStr (drawn_time example_env empty_state)) ∧
      dict_lookup "modifiedDateTime" d = Some (PStr (drawn_time example_env empty_state)).
Proof.
  apply (process_organizations_shares_id example_env
           (PList [PDict example_entry; PDict example_entry]) empty_state).
  reflexivity.
Defined.

(** ** C4 and C10: when the [UPRN] key is omitted *)

(** When the lookup of the UPRN raises, the record has no [UPRN] key. *)
Lemma uprn_omitted_when_path_raises (random_id now_time : string)
    (lookup_field name : pyval) (addr : list pyval) (org : pyval) (e : exn) :
  uprn_path org = Raise e →
  dict_lookup "UPRN"
    (canonical_record random_id now_time lookup_field name addr
       (try_except (uprn_path org) (PStr "NA"))) = None.
Proof. intros ->. reflexivity. Qed.

(** C4 fails on the code.  The last step of the UPRN path is a [get], which
    does not raise on a missing [valueString]: the lookup gives [None],
    which is not the sentinel, and the record keeps a [UPRN] key holding
    [None]. *)
Theorem process_organizations_keeps_none_uprn (E : env) (s : state) :
  uprn_path (PDict org_without_value_string) = Ok PNone ∧
  ∃ r : dict,
    process_organizations E
      (PList [PDict [("resource", PDict org_without_value_string)]]) s
    = (Ok [PDict r], after_draws s) ∧
    dict_lookup "UPRN" r = Some PNone.
Proof.
  split; [reflexivity |].
  rewrite process_organizations_run. eexists. split; reflexivity.
Qed.

Lemma dict_lookup_remove (k : string) (d : dict) :
  dict_lookup k (dict_remove k d) = None.
Proof.
  induction d as [| [k0 v0] d IH]; simpl; [done |].
  destruct (String.eqb k0 k) eqn:H; simpl; [done |]. by rewrite H.
Qed.

Lemma capitalize_fold_remove_extension (d : dict) : ∀ acc : dict,
  foldlM capitalize_entry acc (dict_remove "extension" d)
  = foldlM capitalize_entry acc d.
Proof.
  induction d as [| [k0 v0] d IH]; intros acc; [done |].
  rewrite foldlM_cons, capitalize_entry_value. unfold dict_remove. cbn [List.filter fst].
  destruct (String.eqb k0 "extension") eqn:H; cbn [negb].
  - unfold capitalized_value. rewrite H. simpl. apply IH.
  - rewrite foldlM_cons, capitalize_entry_value.
    destruct (capitalized_value k0 v0) as [r |]; [simpl | done].
    apply IH.
Qed.

Lemma capitalize_address_item_remove_extension (d : dict) :
  capitalize_address_item (PDict (dict_remove "extension" d))
  = capitalize_address_item (PDict d).
Proof.
  unfold capitalize_address_item. simpl.
  by rewrite capitalize_fold_remove_extension.
Qed.

Lemma uprn_path_address (org : dict) (v : pyval) :
  uprn_path (PDict org) = Ok v →
  ∃ address0 rest, dict_lookup "address" org = Some (PList (PDict address0 :: rest)).
Proof.
  unfold uprn_path. intros H. inv_bind H. inv_bind H. inv_bind H. clear H.
  simpl in Ha. injection Ha as <-.
  destruct (dict_lookup "address" org) as [[| | | str | l |] |]; simpl in *;
    try discriminate.
  - destruct (String.get 0 str); [| discriminate].
    injection Ha0 as <-. discriminate.
  - destruct l as [| x rest]; [discriminate |]. simpl in Ha0. injection Ha0 as ->.
    destruct a0; try discriminate. eauto.
Qed.

Lemma entry_records_without_uprn_path (random_id now_time : string)
    (entry org : dict) :
  dict_lookup "resource" entry = Some (PDict org) →
  uprn_path (PDict org) = Ok (PStr "NA") →
  ∃ org' : dict,
    dict_lookup "resource" (without_uprn_path entry) = Some (PDict org') ∧
    uprn_path (PDict org') = Raise TypeError ∧
    entry_records random_id now_time (PDict (without_uprn_path entry))
    = entry_records random_id now_time (PDict entry).
Proof.
  intros Hres Huprn.
  destruct (uprn_path_address org _ Huprn) as (address0 & rest & Haddr).
  unfold without_uprn_path. rewrite Hres, Haddr.
  eexists. split; [apply dict_lookup_set_eq |].
  split.
  - unfold uprn_path. simpl. rewrite dict_lookup_set_eq. simpl.
    by rewrite dict_lookup_remove.
  - unfold entry_records, normalised_address. simpl.
    rewrite dict_lookup_set_eq, Hres. simpl.
    rewrite !dict_lookup_set_ne by done.
    destruct (py_eq_str (default PNone (dict_lookup "resourceType" org)) "Organization");
      [| done].
    rewrite dict_lookup_set_eq, Haddr.
    cbn [default from_option id List.filter isinstance_dict py_iter mbind
         outcome_bind mapM].
    rewrite capitalize_address_item_remove_extension.
    unfold uprn_path at 1. simpl. rewrite dict_lookup_set_eq. simpl.
    rewrite dict_lookup_remove. simpl. by rewrite Huprn.
Qed.

(** C10.  An organisation whose UPRN path holds the string [NA] gets a
    record without a [UPRN] key, and the output of [process_organizations]
    is the one it returns when that entry has no UPRN path at all. *)
Theorem process_organizations_uprn_na (E : env) (s s' : state)
    (before after : list pyval) (entry org : dict) (records : list pyval) :
  dict_lookup "resource" entry = Some (PDict org) →
  dict_lookup "resourceType" org = Some (PStr "Organization") →
  uprn_path (PDict org) = Ok (PStr "NA") →
  process_organizations E (PList (before ++ PDict entry :: after)) s
  = (Ok records, s') →
  (∃ records1 (r : dict) records2,
      process_organizations E (PList before) s = (Ok records1, s') ∧
      process_organizations E (PList after) s = (Ok records2, s') ∧
      records = records1 ++ PDict r :: records2 ∧
      dict_lookup "UPRN" r = None) ∧
  (∃ org' : dict,
      dict_lookup "resource" (without_uprn_path entry) = Some (PDict org') ∧
      uprn_path (PDict org') = Raise TypeError) ∧
  process_organizations E
    (PList (before ++ PDict (without_uprn_path entry) :: after)) s
  = (Ok records, s').
Proof.
  intros Hres Hrt Huprn.
  rewrite !process_organizations_run, !process_organizations_with_records.
  intros [= Hrun <-].
  destruct (entry_records_without_uprn_path (drawn_id E s) (drawn_time E s)
              entry org Hres Huprn) as (org' & Hres' & Huprn' & Hsame).
  rewrite !mapM_app in *. cbn [mapM] in *. rewrite Hsame.
  split; [| split; [eauto | by rewrite Hrun]].
  bind_inv Hrun as per Hper. injection Hrun as <-.
  bind_inv Hper as per1 Hbefore. bind_inv Hper as per2 Hrest. injection Hper as <-.
  bind_inv Hrest as recs Hentry. bind_inv Hrest as per3 Hafter.
  injection Hrest as <-.
  rewrite Hbefore, Hafter. simpl.
  unfold entry_records in Hentry. simpl in Hentry.
  rewrite Hres in Hentry. simpl in Hentry. rewrite Hrt in Hentry. simpl in Hentry.
  bind_inv Hentry as addr Haddr. bind_inv Hentry as name Hname.
  injection Hentry as <-.
  rewrite Huprn. simpl.
  eexists _, _, _. split; [reflexivity |]. split; [reflexivity |].
  split; [by rewrite concat_app |]. reflexivity.
Qed.

Lemma process_organizations_uprn_na_witness :
  let records :=
    [PDict (canonical_record (drawn_id example_env empty_state)
              (drawn_time example_env empty_state)
              (PStr "X1") (PStr "Na Clinic") [PDict [("city", PStr "Leeds")]]
              (PStr "NA"))] in
  let org : dict :=
    [ ("resourceType", PStr "Organization"); ("id", PStr "X1");
      ("name", PStr "na clinic");
      ("address",
       PList [PDict [ ("city", PStr "leeds");
                      ("extension",
                       PList [PDict [("extension",
                                      PList [PDict [("url", PStr "type")];
                                             PDict [("valueString", PStr "NA")]])]]) ]]) ] in
  let entry : dict := [("resource", PDict org)] in
  (∃ records1 (r : dict) records2,
      process_organizations example_env (PList []) empty_state
      = (Ok records1, after_draws empty_state) ∧
      process_organizations example_env (PList []) empty_state
      = (Ok records2, after_draws empty_state) ∧
      records = records1 ++ PDict r :: records2 ∧
      dict_lookup "UPRN" r = None) ∧
  (∃ org' : dict,
      dict_lookup "resource" (without_uprn_path entry) = Some (PDict org') ∧
      uprn_path (PDict org') = Raise TypeError) ∧
  process_organizations example_env
    (PList ([] ++ PDict (without_uprn_path entry) :: [])) empty_state
  = (Ok records, after_draws empty_state).
Proof.
  intros records org entry.
  apply (process_organizations_uprn_na example_env empty_state
           (after_draws empty_state) [] [] entry org records); reflexivity.
Defined.

(** ** Running the state monad *)

Lemma M_bind_run {A B} (c : M A) (f : A → M B) (s : state) :
  (c ≫= f) s =
  match c s with
  | (Ok a, s1) => f a s1
  | (Raise e, s1) => (Raise e, s1)
  end.
Proof. reflexivity. Qed.

Lemma M_bind_Ok {A B} (c : M A) (f : A → M B) (s s' : state) (b : B) :
  (c ≫= f) s = (Ok b, s') →
  ∃ a s1, c s = (Ok a, s1) ∧ f a s1 = (Ok b, s').
Proof.
  rewrite M_bind_run. destruct (c s) as [[a | e] s1]; [eauto | discriminate].
Qed.

Lemma forM_cons {A} (x : A) (l : list A) (body : A → M unit) :
  forM_ (x :: l) body = body x ≫= λ _, forM_ l body.
Proof. reflexivity. Qed.

Section Keeps.
Variable I : state → Prop.

Lemma keeps_ret {A} (a : A) : keeps I (mret a).
Proof. intros s r s' HI [= _ <-]. done. Qed.

Lemma keeps_lift {A} (c : outcome A) : keeps I (lift c).
Proof. intros s r s' HI [= _ <-]. done. Qed.

Lemma keeps_raise {A} (e : exn) : keeps I (@raise A e).
Proof. intros s r s' HI [= _ <-]. done. Qed.

Lemma keeps_bind {A B} (c : M A) (f : A → M B) :
  keeps I c → (∀ a, keeps I (f a)) → keeps I (c ≫= f).
Proof.
  intros Hc Hf s r s' HI. rewrite M_bind_run.
  destruct (c s) as [[a | e] s1] eqn:Hcs.
  - apply (Hf a). by eapply Hc.
  - intros [= _ <-]. by eapply Hc.
Qed.

Lemma keeps_forM {A} (l : list A) (body : A → M unit) :
  (∀ x, x ∈ l → keeps I (body x)) → keeps I (forM_ l body).
Proof.
  induction l as [| x l IH]; intros Hbody.
  - apply keeps_ret.
  - rewrite forM_cons. apply keeps_bind.
    + apply Hbody. left.
    + intros _. apply IH. intros y Hy. apply Hbody. by right.
Qed.

Lemma keeps_if {A} (b : bool) (c1 c2 : M A) :
  keeps I c1 → keeps I c2 → keeps I (if b then c1 else c2).
Proof. by destruct b. Qed.
End Keeps.

Section Completes.
Variable I : state → Prop.

Lemma completes_ret {A} (a : A) : completes I (mret a).
Proof. intros s HI. by exists a, s. Qed.

Lemma completes_lift {A} (c : outcome A) (a : A) : c = Ok a → completes I (lift c).
Proof. intros -> s HI. by exists a, s. Qed.

Lemma completes_bind {A B} (c : M A) (f : A → M B) (Q : A → Prop) :
  (∀ s, I s → ∃ a s', c s = (Ok a, s') ∧ I s' ∧ Q a) →
  (∀ a, Q a → completes I (f a)) →
  completes I (c ≫= f).
Proof.
  intros Hc Hf s HI. rewrite M_bind_run.
  destruct (Hc s HI) as (a & s1 & -> & HI1 & HQ). by apply (Hf a).
Qed.

Lemma completes_bind' {A B} (c : M A) (f : A → M B) :
  completes I c → (∀ a, completes I (f a)) → completes I (c ≫= f).
Proof.
  intros Hc Hf. apply (completes_bind c f (λ _, True)); [| auto].
  intros s HI. destruct (Hc s HI) as (a & s' & ? & ?). eauto.
Qed.

Lemma completes_forM {A} (l : list A) (body : A → M unit) :
  (∀ x, x ∈ l → completes I (body x)) → completes I (forM_ l body).
Proof.
  induction l as [| x l IH]; intros Hbody.
  - apply completes_ret.
  - rewrite forM_cons. apply completes_bind'.
    + apply Hbody. left.
    + intros _. apply IH. intros y Hy. apply Hbody. by right.
Qed.
End Completes.

(** ** C6: the directory API reader *)

(** C6.  [read_ods_api] never raises and sends exactly one request.  Its
    result is the decoded body when the status is 200, and [None] with one
    printed line when the status is not 200, when the request raises, or
    when the body does not decode.  The table is not touched, and on [None]
    the caller prints the failure line and neither normalises nor writes. *)
Theorem read_ods_api_result (E : env) (api_endpoint : string)
    (headers params : pyval) (s : state) :
  let r := {| req_endpoint := api_endpoint; req_headers := headers;
              req_params := params |} in
  ∃ (result : pyval) (s' : state),
    read_ods_api E api_endpoint headers params s = (Ok result, s') ∧
    locations s' = locations s ∧
    sent s' = sent s ++ [r] ∧
    (∀ text body,
       requests_get E (clock s) r = HttpResponse 200 text (inl body) →
       result = body ∧ stdout s' = stdout s) ∧
    (∀ status_code text json,
       requests_get E (clock s) r = HttpResponse status_code text json →
       status_code ≠ 200%Z →
       result = PNone ∧
       stdout s' = stdout s ++ ["Error: " +:+ str_Z status_code +:+ " - " +:+ text]) ∧
    (∀ message,
       requests_get E (clock s) r = HttpError message
       ∨ (∃ text, requests_get E (clock s) r = HttpResponse 200 text (inr message)) →
       result = PNone ∧
       stdout s' = stdout s ++ ["An error occurred: " +:+ message]) ∧
    (result = PNone →
     ∃ s'', load_response E result s' = (Ok tt, s'') ∧
            locations s'' = locations s ∧
            sent s'' = sent s' ∧
            stdout s'' = stdout s' ++ [failed_to_fetch]).
Proof.
  intros r. unfold read_ods_api. rewrite M_bind_run. cbn [tick].
  rewrite M_bind_run. cbn [record_request clock].
  fold r.
  destruct (requests_get E (clock s) r) as [message | status text [body | message]];
    [| destruct (Z.eqb_spec status 200) as [-> | Hstatus] ..];
    eexists _, _; (split; [reflexivity |]); cbn;
    split_and!; try done;
    first [ by (intros; simplify_eq; eexists)
          | intros; repeat match goal with
                           | H : _ ∨ _ |- _ => destruct H
                           | H : ∃ _, _ |- _ => destruct H
                           end; simplify_eq; done ].
Qed.

(** ** The tables *)

Lemma dict_set_set (k : string) (v1 v2 : pyval) (d : dict) :
  dict_set k v2 (dict_set k v1 d) = dict_set k v2 d.
Proof.
  induction d as [| [k0 v0] d IH]; simpl.
  - by rewrite String.eqb_refl.
  - destruct (String.eqb k0 k) eqn:H; simpl.
    + by rewrite String.eqb_refl.
    + by rewrite H, IH.
Qed.

Lemma elem_of_scan (t : gmap string dict) (item : dict) :
  item ∈ (map_to_list t).*2 ↔ ∃ k, t !! k = Some item.
Proof.
  rewrite list_elem_of_fmap. split.
  - intros ([k it] & -> & Hin). exists k. by apply elem_of_map_to_list.
  - intros [k Hk]. exists (k, item). split; [done |]. by apply elem_of_map_to_list.
Qed.

Lemma filter_nil_iff {A} (f : A → bool) (l : list A) :
  List.filter f l = [] ↔ ∀ x, x ∈ l → f x = false.
Proof.
  induction l as [| y l IH]; simpl.
  - split; [| done]. intros _ x Hx. by apply elem_of_nil in Hx.
  - destruct (f y) eqn:Hy.
    + split; [discriminate |]. intros H. specialize (H y). rewrite Hy in H.
      discriminate H. left.
    + rewrite IH. split.
      * intros H x [-> | Hx]%elem_of_cons; auto.
      * intros H x Hx. apply H. by right.
Qed.

Lemma scan_lookup_field_nil (t : gmap string dict) (v : pyval) :
  scan_lookup_field t v = [] ↔
  ∀ k item, t !! k = Some item → dict_lookup "lookup_field" item ≠ Some v.
Proof.
  unfold scan_lookup_field. rewrite filter_nil_iff. split.
  - intros H k item Hk. specialize (H item). rewrite bool_decide_eq_false in H.
    apply H, elem_of_scan. eauto.
  - intros H item [k Hk]%elem_of_scan. rewrite bool_decide_eq_false. eauto.
Qed.

Lemma data_exists_run (v : pyval) (s : state) :
  data_exists v s =
  (Ok (match scan_lookup_field (locations s) v with [] => false | _ => true end), s).
Proof.
  unfold data_exists. rewrite M_bind_run. cbn [get_locations].
  by destruct (scan_lookup_field (locations s) v).
Qed.

Lemma keeps_lift_bind (I : state → Prop) {A B} (c : outcome A) (f : A → M B) :
  (∀ a, c = Ok a → keeps I (f a)) → keeps I (lift c ≫= f).
Proof.
  intros Hf s r s' HI. rewrite M_bind_run. cbn [lift].
  destruct c as [a | e].
  - by apply (Hf a).
  - by intros [= _ <-].
Qed.

Lemma unique_lookup_insert (t : gmap string dict) (k : string) (item : dict) :
  unique_lookup t →
  (∀ v, dict_lookup "lookup_field" item = Some v →
        ∀ k' item', k' ≠ k → t !! k' = Some item' →
                    dict_lookup "lookup_field" item' ≠ Some v) →
  unique_lookup (<[k := item]> t).
Proof.
  intros Huniq Hfresh k1 k2 item1 item2 v H1 H2 Hv1 Hv2.
  destruct (decide (k1 = k)) as [-> | Hk1], (decide (k2 = k)) as [-> | Hk2];
    [done | | |].
  - rewrite lookup_insert_eq in H1. rewrite lookup_insert_ne in H2 by done.
    injection H1 as <-. by destruct (Hfresh v Hv1 k2 item2).
  - rewrite lookup_insert_eq in H2. rewrite lookup_insert_ne in H1 by done.
    injection H2 as <-. by destruct (Hfresh v Hv2 k1 item1).
  - rewrite lookup_insert_ne in H1, H2 by done. eauto.
Qed.

Lemma update_item_keeps_unique (k val : pyval) :
  keeps (λ s, unique_lookup (locations s)) (update_item k val).
Proof.
  intros s r s' Huniq. unfold update_item. destruct k; try by intros [= _ <-].
  rewrite M_bind_run. cbn [get_locations set_locations]. intros [= _ <-]. cbn.
  apply unique_lookup_insert; [done |].
  intros v Hv k' item' Hne Hk' Hv'.
  rewrite dict_lookup_set_ne in Hv by done.
  destruct (locations s !! s0) as [item |] eqn:Hitem; simpl in Hv; [| done].
  apply Hne. eapply Huniq; eauto.
Qed.

Lemma update_records_keeps_unique (E : env) :
  keeps (λ s, unique_lookup (locations s)) (update_records E).
Proof.
  unfold update_records. apply keeps_bind; [by intros s r s' H [= _ <-] |].
  intros t. apply keeps_forM. intros item _.
  repeat apply keeps_if; try apply keeps_ret.
  apply keeps_forM. intros org _. apply keeps_bind; [apply keeps_lift |].
  intros v. apply keeps_if; [apply update_item_keeps_unique | apply keeps_ret].
Qed.

(** ** C1: the store writer *)

(** What [write_item] does to the table: nothing, or the insert of a dict
    item under its key after the scan found no record with the item's
    [lookup_field] value. *)
Lemma write_item_checks_first (item : pyval) (s s' : state) (r : outcome unit) :
  write_item item s = (r, s') →
  locations s' = locations s ∨
  ∃ (d : dict) (k : string),
    item = PDict d ∧ item_key d = Some k ∧
    (∀ k' item', locations s !! k' = Some item' →
       dict_lookup "lookup_field" item'
       ≠ Some (default (PDict []) (dict_lookup "lookup_field" d))) ∧
    locations s' = <[k := d]> (locations s).
Proof.
  unfold write_item. rewrite M_bind_run. cbn [lift].
  destruct item as [| | | | | d]; try (intros [= _ <-]; by left).
  cbn [py_get_default]. rewrite M_bind_run, data_exists_run.
  destruct (scan_lookup_field (locations s) _) eqn:Hscan.
  - unfold put_item. destruct (item_key d) as [k |] eqn:Hkey.
    + rewrite M_bind_run. cbn [get_locations set_locations]. intros [= _ <-].
      right. exists d, k. split_and!; try done.
      by apply scan_lookup_field_nil.
    + intros [= _ <-]. by left.
  - intros [= _ <-]. by left.
Qed.

Lemma write_item_keeps_unique (item : pyval) :
  keeps (λ s, unique_lookup (locations s)) (write_item item).
Proof.
  intros s r s' Huniq Hrun.
  destruct (write_item_checks_first _ _ _ _ Hrun)
    as [-> | (d & k & -> & Hkey & Hfresh & ->)]; [done |].
  apply unique_lookup_insert; [done |].
  intros v Hv k' item' _ Hk'. specialize (Hfresh k' item' Hk').
  by rewrite Hv in Hfresh.
Qed.

Lemma write_to_dynamodb_keeps_unique (E : env) (processed_data : list pyval) :
  keeps (λ s, unique_lookup (locations s)) (write_to_dynamodb E processed_data).
Proof.
  unfold write_to_dynamodb. apply keeps_bind.
  - apply keeps_forM. intros item _. apply write_item_keeps_unique.
  - intros _. apply update_records_keeps_unique.
Qed.


Lemma unique_lookup_empty : unique_lookup ∅.
Proof. intros k1 k2 item1 item2 v H1. by rewrite lookup_empty in H1. Qed.


(** The same external org id under two different synthesised ids: the second
    write finds the first record and inserts nothing. *)
Example same_org_id_written_twice :
  let s1 := (write_to_dynamodb example_env [PDict example_record] empty_state).2 in
  let s2 := (write_to_dynamodb example_env [PDict example_record_again] s1).2 in
  map_to_list (locations s2)
  = [("1234567890123456",
      dict_set "managingOrganization" (PStr "org-1") example_record)].
Proof. vm_compute. reflexivity. Qed.

(** ** C5: the cross-linker *)

Lemma cross_linked_refl (orgs : list dict) (t : gmap string dict) :
  cross_linked orgs t t.
Proof. intros k. destruct (t !! k) eqn:H; eauto. Qed.

Lemma cross_linked_update (orgs : list dict) (t t' : gmap string dict)
    (k : string) (item org : dict) (v : pyval) :
  cross_linked orgs t t' →
  t !! k = Some item →
  org ∈ orgs →
  org_identifier_value org = Ok v →
  py_eq v (dict_get item "lookup_field") = true →
  cross_linked orgs t
    (<[k := dict_set "managingOrganization" (dict_get org "id")
               (default [("id", PStr k)] (t' !! k))]> t').
Proof.
  intros Hlinked Hk Horg Hv Heq k'.
  destruct (decide (k' = k)) as [-> | Hne].
  - rewrite Hk, lookup_insert_eq. eexists. split; [done |]. right.
    exists org, v. split_and!; try done.
    specialize (Hlinked k). rewrite Hk in Hlinked.
    destruct Hlinked as (cur & -> & [-> | (org0 & v0 & _ & _ & _ & ->)]); simpl.
    + done.
    + apply dict_set_set.
  - rewrite lookup_insert_ne by done. apply Hlinked.
Qed.

(** C5.  On a table that keeps each item under its own [id], the
    cross-linker, however it ends, prints nothing, sends nothing, and adds or
    removes no record.  A record it changed is the old record with
    [managingOrganization] set to the [id] of an organisations entry whose
    identifier value equals the record's [lookup_field]; every other field
    of that record, and every other record, is as before. *)
Theorem update_records_links_matching_only (E : env) (s s' : state)
    (r : outcome unit) :
  wf_table (locations s) →
  update_records E s = (r, s') →
  stdout s' = stdout s ∧ sent s' = sent s ∧
  ∀ k,
    match locations s !! k with
    | None => locations s' !! k = None
    | Some item =>
        ∃ item',
          locations s' !! k = Some item' ∧
          (item' = item ∨
           ∃ (org : dict) (v : pyval),
             org ∈ organisations E ∧
             org_identifier_value org = Ok v ∧
             py_eq v (dict_get item "lookup_field") = true ∧
             item' = dict_set "managingOrganization" (dict_get org "id") item) ∧
          ∀ field, field ≠ "managingOrganization" →
                   dict_lookup field item' = dict_lookup field item
    end.
Proof.
  intros Hwf Hrun.
  set (I := λ c : state,
         stdout c = stdout s ∧ sent c = sent s ∧
         cross_linked (organisations E) (locations s) (locations c)).
  assert (I s') as (Hout & Hsent & Hlinked).
  { revert Hrun. unfold update_records. rewrite M_bind_run. cbn [get_locations].
    apply (keeps_forM I); [| by split_and!; [| | apply cross_linked_refl]].
    intros item [k Hk]%elem_of_scan.
    assert (dict_get item "id" = PStr k) as Hid
      by (unfold dict_get; by rewrite (Hwf k item Hk)).
    cbv zeta. rewrite Hid.
    repeat apply keeps_if; try apply keeps_ret.
    apply keeps_forM. intros org Horg. apply keeps_lift_bind. intros v Hv.
    destruct (py_eq v (dict_get item "lookup_field")) eqn:Heq; [| apply keeps_ret].
    intros c rc c' (Hc1 & Hc2 & Hc3). unfold update_item. rewrite M_bind_run.
    cbn [get_locations set_locations]. intros [= _ <-]. cbn.
    split_and!; try done. by eapply cross_linked_update. }
  split_and!; try done.
  intros k. specialize (Hlinked k). destruct (locations s !! k) as [item |]; [| done].
  destruct Hlinked as (item' & Hk' & Hcase). exists item'. split_and!; try done.
  intros field Hfield.
  destruct Hcase as [-> | (org & v & _ & _ & _ & ->)]; [done |].
  by apply dict_lookup_set_ne.
Qed.

Lemma update_records_links_matching_only_witness :
  let s' := (update_records example_env linked_state).2 in
  stdout s' = stdout linked_state ∧ sent s' = sent linked_state ∧
  ∀ k,
    match locations linked_state !! k with
    | None => locations s' !! k = None
    | Some item =>
        ∃ item',
          locations s' !! k = Some item' ∧
          (item' = item ∨
           ∃ (org : dict) (v : pyval),
             org ∈ organisations example_env ∧
             org_identifier_value org = Ok v ∧
             py_eq v (dict_get item "lookup_field") = true ∧
             item' = dict_set "managingOrganization" (dict_get org "id") item) ∧
          ∀ field, field ≠ "managingOrganization" →
                   dict_lookup field item' = dict_lookup field item
    end.
Proof.
  intros s'.
  apply (update_records_links_matching_only example_env linked_state s'
           (update_records example_env linked_state).1).
  - unfold linked_state. cbn [locations].
    intros k item [<- <-]%lookup_singleton_Some. reflexivity.
  - vm_compute. reflexivity.
Defined.

Example update_records_example :
  map_to_list (locations (update_records example_env linked_state).2)
  = [("1234567890123456",
      dict_set "managingOrganization" (PStr "org-1") example_record)].
Proof. vm_compute. reflexivity. Qed.

(** ** What the functions leave alone *)

Lemma keeps_get_locations (I : state → Prop) : keeps I get_locations.
Proof. by intros s r s' HI [= _ <-]. Qed.

Ltac keeps_step :=
  first
    [ apply keeps_ret
    | apply keeps_lift
    | apply keeps_raise
    | apply keeps_get_locations
    | assumption
    | apply keeps_bind; [| intros ?]
    | apply keeps_forM; intros ? _
    | match goal with
      | H : ∀ x, keeps _ (_ x) |- _ => apply H
      | |- keeps _ (if ?b then _ else _) => destruct b
      | |- keeps _ (match ?x with _ => _ end) => destruct x
      end ].

Section Frame.
Variable E : env.
Variable I : state → Prop.
Hypothesis I_tick : keeps I tick.
Hypothesis I_print : ∀ line, keeps I (print line).
Hypothesis I_set_locations : ∀ t, keeps I (set_locations t).

Lemma keeps_get_ssm (name : string) : keeps I (get_ssm E name).
Proof. unfold get_ssm. repeat keeps_step. Qed.

Lemma keeps_get_api_token : keeps I (get_api_token E).
Proof.
  unfold get_api_token.
  repeat first [ apply keeps_get_ssm | keeps_step ].
Qed.

Lemma keeps_get_headers : keeps I (get_headers E).
Proof. unfold get_headers. repeat first [ apply keeps_get_api_token | keeps_step ]. Qed.

Lemma keeps_process_organizations (organizations : pyval) :
  keeps I (process_organizations E organizations).
Proof. unfold process_organizations. repeat keeps_step. Qed.

Lemma keeps_put_item (item : pyval) : keeps I (put_item item).
Proof. unfold put_item. repeat keeps_step. Qed.

Lemma keeps_data_exists (v : pyval) : keeps I (data_exists v).
Proof. unfold data_exists. repeat keeps_step. Qed.

Lemma keeps_update_item (k val : pyval) : keeps I (update_item k val).
Proof. unfold update_item. repeat keeps_step. Qed.

Lemma keeps_update_records : keeps I (update_records E).
Proof. unfold update_records. repeat first [ apply keeps_update_item | keeps_step ]. Qed.

Lemma keeps_write_item (item : pyval) : keeps I (write_item item).
Proof.
  unfold write_item.
  repeat first [ apply keeps_data_exists | apply keeps_put_item | keeps_step ].
Qed.

Lemma keeps_write_to_dynamodb (processed_data : list pyval) :
  keeps I (write_to_dynamodb E processed_data).
Proof.
  unfold write_to_dynamodb.
  repeat first [ apply keeps_write_item | apply keeps_update_records | keeps_step ].
Qed.

Lemma keeps_read_excel_values (file_path : string) :
  keeps I (read_excel_values E file_path).
Proof. unfold read_excel_values. repeat keeps_step. Qed.

Lemma keeps_load_response (response_data : pyval) :
  keeps I (load_response E response_data).
Proof.
  unfold load_response.
  repeat first [ apply keeps_process_organizations
               | apply keeps_write_to_dynamodb | keeps_step ].
Qed.
End Frame.

Section FrameRequests.
Variable E : env.
Variable I : state → Prop.
Hypothesis I_tick : keeps I tick.
Hypothesis I_print : ∀ line, keeps I (print line).
Hypothesis I_set_locations : ∀ t, keeps I (set_locations t).
Hypothesis I_record_request : ∀ r, keeps I (record_request r).

Lemma keeps_read_ods_api (api_endpoint : string) (headers params : pyval) :
  keeps I (read_ods_api E api_endpoint headers params).
Proof.
  unfold read_ods_api. repeat first [ apply I_print | apply I_record_request | keeps_step ].
Qed.

Lemma keeps_fetch_loop (api_endpoint : string) (headers : pyval)
    (odscode_params : list pyval) :
  ∀ last, keeps I (fetch_loop E api_endpoint headers odscode_params last).
Proof.
  induction odscode_params as [| p rest IH]; intros last; cbn [fetch_loop].
  - apply keeps_ret.
  - repeat first [ apply keeps_read_ods_api | apply keeps_load_response | apply IH
                 | keeps_step ].
Qed.

Lemma keeps_fetch_organizations : keeps I (fetch_organizations E).
Proof.
  unfold fetch_organizations.
  repeat first [ apply keeps_get_ssm | apply keeps_get_headers
               | apply keeps_read_excel_values | apply keeps_fetch_loop
               | apply I_print | keeps_step ].
Qed.

Lemma keeps_fetch_y_organizations : keeps I (fetch_y_organizations E).
Proof.
  unfold fetch_y_organizations.
  repeat first [ apply keeps_get_ssm | apply keeps_get_headers
               | apply keeps_read_ods_api | apply keeps_load_response
               | apply I_print | keeps_step ].
Qed.
End FrameRequests.

Lemma sent_is_tick l : keeps (sent_is l) tick.
Proof. by intros s r s' H [= _ <-]. Qed.

Lemma sent_is_print l line : keeps (sent_is l) (print line).
Proof. by intros s r s' H [= _ <-]. Qed.

Lemma sent_is_set_locations l t : keeps (sent_is l) (set_locations t).
Proof. by intros s r s' H [= _ <-]. Qed.

Lemma stdout_extends_tick base : keeps (stdout_extends base) tick.
Proof. by intros s r s' H [= _ <-]. Qed.

Lemma stdout_extends_print base line : keeps (stdout_extends base) (print line).
Proof.
  intros s r s' [out H] [= _ <-]. exists (out ++ [line]). cbn.
  by rewrite H, app_assoc.
Qed.

Lemma stdout_extends_set_locations base t : keeps (stdout_extends base) (set_locations t).
Proof. by intros s r s' H [= _ <-]. Qed.

Lemma stdout_extends_record_request base r : keeps (stdout_extends base) (record_request r).
Proof. by intros s r0 s' H [= _ <-]. Qed.

Lemma stdout_extends_refl (s : state) : stdout_extends (stdout s) s.
Proof. exists []. by rewrite app_nil_r. Qed.

(** ** C8: the two runs of the handler *)

Lemma get_ssm_Ok (E : env) (name : string) (s s' : state) (v : string) :
  get_ssm E name s = (Ok v, s') → ssm_get_parameter E (clock s) name = Ok v.
Proof.
  unfold get_ssm. rewrite M_bind_run. cbn [tick lift]. by intros [= -> _].
Qed.

Lemma read_excel_values_Ok (E : env) (file_path : string) (s s' : state)
    (params : list pyval) :
  read_excel_values E file_path s = (Ok params, s') →
  ∃ codes, read_excel_codes E (clock s) file_path = Ok codes ∧
           params = odscode_param <$> codes.
Proof.
  unfold read_excel_values. rewrite M_bind_run. cbn [tick]. rewrite M_bind_run.
  cbn [lift clock]. destruct (read_excel_codes E (clock s) file_path) as [codes |];
    [| discriminate].
  intros [= <- _]. by exists codes.
Qed.

Lemma read_ods_api_sent (E : env) (api_endpoint : string) (headers params : pyval)
    (s s' : state) (r : outcome pyval) :
  read_ods_api E api_endpoint headers params s = (r, s') →
  sent s' = sent s ++ [make_request api_endpoint headers params].
Proof.
  unfold read_ods_api. rewrite M_bind_run. cbn [tick].
  rewrite M_bind_run. cbn [record_request clock].
  destruct (requests_get E _ _) as [message | status text [body | message]];
    [| destruct (status =? 200)%Z ..]; by intros [= _ <-].
Qed.

Lemma fetch_loop_sent (E : env) (api_endpoint : string) (headers : pyval)
    (odscode_params : list pyval) :
  ∀ last s s' r,
    fetch_loop E api_endpoint headers odscode_params last s = (Ok r, s') →
    sent s' = sent s ++ (make_request api_endpoint headers <$> odscode_params).
Proof.
  induction odscode_params as [| p rest IH]; intros last s s' r; cbn [fetch_loop].
  - intros [= _ <-]. by rewrite app_nil_r.
  - intros (response & s1 & Hread & Hrest)%M_bind_Ok.
    apply M_bind_Ok in Hrest as ([] & s2 & Hload & Hrest).
    apply read_ods_api_sent in Hread.
    apply (keeps_load_response E (sent_is (sent s1))) in Hload;
      [| apply sent_is_tick | apply sent_is_print | apply sent_is_set_locations | done].
    apply IH in Hrest. rewrite Hrest, Hload, Hread, fmap_cons, <- app_assoc. done.
Qed.

Ltac keeps_sent H :=
  match type of H with
  | ?c ?s = (_, _) =>
      first
        [ apply (keeps_get_ssm _ (sent_is (sent s))) in H
        | apply (keeps_get_headers _ (sent_is (sent s))) in H
        | apply (keeps_read_excel_values _ (sent_is (sent s))) in H
        | apply (keeps_load_response _ (sent_is (sent s))) in H
        | apply (sent_is_print (sent s)) in H ];
      [ unfold sent_is in H
      | first [ apply sent_is_tick | apply sent_is_print
              | apply sent_is_set_locations | done ] .. ]
  end.

Lemma fetch_organizations_sent (E : env) (s s' : state) :
  fetch_organizations E s = (Ok tt, s') →
  ∃ (base : string) (headers : pyval) (codes : list pyval) (n : nat),
    ssm_get_parameter E (clock s) ssm_base_api_url = Ok base ∧
    read_excel_codes E n odscode_file_path = Ok codes ∧
    sent s' = sent s ++
      ((λ code, make_request (base +:+ "/fhir/OrganizationAffiliation?active=true")
                  headers (odscode_param code)) <$> codes).
Proof.
  unfold fetch_organizations.
  intros (base & s1 & Hssm & H)%M_bind_Ok.
  apply M_bind_Ok in H as (headers & s2 & Hheaders & H).
  apply M_bind_Ok in H as (params & s3 & Hexcel & H).
  apply M_bind_Ok in H as (last & s4 & Hloop & H).
  exists base, headers.
  destruct (read_excel_values_Ok _ _ _ _ _ Hexcel) as (codes & Hcodes & ->).
  exists codes, (clock s2). split; [by eapply get_ssm_Ok |]. split; [done |].
  apply fetch_loop_sent in Hloop.
  assert (sent s' = sent s4) as ->.
  { destruct last as [response |]; [| discriminate].
    destruct (py_truthy response); by keeps_sent H. }
  keeps_sent Hssm. keeps_sent Hheaders. keeps_sent Hexcel.
  rewrite Hloop, Hexcel, Hheaders, Hssm. by rewrite <- list_fmap_compose.
Qed.

Lemma fetch_y_organizations_sent (E : env) (s s' : state) :
  fetch_y_organizations E s = (Ok tt, s') →
  ∃ (base : string) (headers : pyval),
    ssm_get_parameter E (clock s) ssm_base_api_url = Ok base ∧
    sent s' = sent s ++
      [make_request (base +:+ "/fhir/Organization?active=true") headers
         (PDict [("type", PStr "RO209")])].
Proof.
  unfold fetch_y_organizations.
  intros (base & s1 & Hssm & H)%M_bind_Ok.
  apply M_bind_Ok in H as (headers & s2 & Hheaders & H).
  apply M_bind_Ok in H as (response & s3 & Hread & H).
  apply M_bind_Ok in H as ([] & s4 & Hload & H).
  exists base, headers. split; [by eapply get_ssm_Ok |].
  assert (sent s' = sent s4) as ->.
  { destruct (py_truthy response); by keeps_sent H. }
  apply read_ods_api_sent in Hread.
  keeps_sent Hssm. keeps_sent Hheaders. keeps_sent Hload.
  by rewrite Hload, Hread, Hheaders, Hssm.
Qed.



Example lambda_handler_example_requests :
  sent (lambda_handler example_env empty_state).2
  = [ make_request "https://directory.example/fhir/OrganizationAffiliation?active=true"
        (PDict [("Authorization", PStr "Bearer tok")]) (odscode_param (PStr "A1"));
      make_request "https://directory.example/fhir/Organization?active=true"
        (PDict [("Authorization", PStr "Bearer tok")])
        (PDict [("type", PStr "RO209")]) ].
Proof. vm_compute. reflexivity. Qed.

(** ** C2: which errors reach the caller of the handler *)


Lemma py_get_dict (d : dict) (k : string) : py_get (PDict d) k = Ok (dict_get d k).
Proof. reflexivity. Qed.

Lemma capitalize_address_item_total (d : dict) :
  well_typed_address d → ∃ d', capitalize_address_item (PDict d) = Ok (PDict d').
Proof.
  intros Hty. destruct (capitalize_fold_total d [] Hty) as [d' Hd'].
  exists d'. unfold capitalize_address_item. cbn [py_items mbind outcome_bind].
  by rewrite Hd'.
Qed.

Lemma normalise_items_total (items : list pyval) :
  well_formed_address_items items = true →
  ∃ addr, mapM capitalize_address_item (List.filter isinstance_dict items) = Ok addr.
Proof.
  induction items as [| a items IH]; cbn [well_formed_address_items forallb].
  - intros _. by exists [].
  - intros [Ha Hitems]%andb_true_iff. destruct (IH Hitems) as [addr Haddr].
    destruct a as [| | | | | d]; cbn [List.filter isinstance_dict]; eauto.
    cbn [mapM]. destruct (capitalize_address_item_total d Ha) as [d' ->].
    cbn [mbind outcome_bind]. rewrite Haddr. simpl. eauto.
Qed.

Lemma entry_records_total (random_id now_time : string) (entry : pyval) :
  well_formed_entry entry = true →
  ∃ records, entry_records random_id now_time entry = Ok records ∧
    Forall (λ r, ∃ d, r = PDict d ∧ item_key d = Some random_id) records.
Proof.
  unfold well_formed_entry, entry_records.
  destruct entry as [| | | | | e]; try discriminate.
  destruct (dict_lookup "resource" e) as [[| | | | | org] |] eqn:Hres; try discriminate.
  unfold well_formed_org. intros Horg.
  rewrite py_get_dict. unfold dict_get at 1. rewrite Hres.
  cbn [default from_option id mbind outcome_bind].
  rewrite !py_get_dict. cbn [mbind outcome_bind].
  destruct (py_eq_str (dict_get org "resourceType") "Organization");
    [| exists []; by split].
  apply andb_true_iff in Horg as [Hname Haddr].
  assert (∃ addr, normalised_address (PDict org) = Ok addr) as [addr ->].
  { unfold normalised_address. cbn [py_get_default mbind outcome_bind].
    destruct (dict_lookup "address" org) as [[| | | | items |] |]; try discriminate;
      cbn [default from_option id py_iter].
    - by apply normalise_items_total.
    - by exists []. }
  cbn [mbind outcome_bind].
  destruct (dict_get org "name") as [| | | name | |]; try discriminate.
  cbn [py_title mbind outcome_bind].
  eexists. split; [reflexivity |]. constructor; [| constructor].
  eexists. split; [reflexivity |].
  unfold item_key.
  by destruct (canonical_record_fields random_id now_time
                 (dict_get org "id") (PStr (title name)) addr
                 (try_except (uprn_path (PDict org)) (PStr "NA"))) as [-> _].
Qed.

Lemma process_organizations_with_total (random_id now_time : string) (body : pyval) :
  well_formed_bundle body = true →
  ∃ organizations records,
    py_get_default body "entry" (PList []) = Ok organizations ∧
    process_organizations_with random_id now_time organizations = Ok records ∧
    Forall (λ r, ∃ d, r = PDict d ∧ item_key d = Some random_id) records.
Proof.
  unfold well_formed_bundle. destruct body as [| | | | | d]; try discriminate.
  cbn [py_get_default].
  assert (∀ entries, forallb well_formed_entry entries = true →
            ∃ records,
              process_organizations_with random_id now_time (PList entries) = Ok records ∧
              Forall (λ r, ∃ d, r = PDict d ∧ item_key d = Some random_id) records)
    as Hentries.
  { intros entries Hwf. rewrite process_organizations_with_records.
    induction entries as [| e entries IH]; cbn [mapM forallb] in *.
    - exists []. by split.
    - apply andb_true_iff in Hwf as [He Hwf].
      destruct (entry_records_total random_id now_time e He) as (recs & -> & Hrecs).
      destruct (IH Hwf) as (records & Hrun & Hrecords).
      cbn [mbind outcome_bind] in *.
      destruct (mapM (entry_records random_id now_time) entries); [| discriminate].
      cbn [mbind outcome_bind] in *. injection Hrun as <-.
      eexists. split; [reflexivity |]. cbn [concat]. by apply Forall_app. }
  destruct (dict_lookup "entry" d) as [[| | | | entries |] |]; try discriminate;
    cbn [default from_option id]; intros Hwf.
  - destruct (Hentries entries Hwf) as (records & ? & ?). eauto.
  - destruct (Hentries [] eq_refl) as (records & ? & ?). eauto.
Qed.

Lemma wf_table_insert (t : gmap string dict) (k : string) (item : dict) :
  wf_table t → dict_lookup "id" item = Some (PStr k) → wf_table (<[k := item]> t).
Proof.
  intros Hwf Hid k' item'. destruct (decide (k' = k)) as [-> | Hne].
  - rewrite lookup_insert_eq. by intros [= <-].
  - rewrite lookup_insert_ne by done. apply Hwf.
Qed.

Lemma item_key_Some (d : dict) (k : string) :
  item_key d = Some k → dict_lookup "id" d = Some (PStr k).
Proof.
  unfold item_key. destruct (dict_lookup "id" d) as [[| | | k' | |] |]; try discriminate.
  by intros [= ->].
Qed.

Lemma write_item_total (d : dict) (k : string) :
  item_key d = Some k → completes wf_state (write_item (PDict d)).
Proof.
  intros Hkey s Hwf. unfold write_item. rewrite M_bind_run. cbn [lift py_get_default].
  rewrite M_bind_run, data_exists_run.
  destruct (scan_lookup_field _ _).
  - unfold put_item. rewrite Hkey, M_bind_run. cbn [get_locations set_locations].
    eexists _, _. split; [reflexivity |].
    apply wf_table_insert; [done | by apply item_key_Some].
  - by eexists _, _.
Qed.

Lemma update_item_total (k : string) (val : pyval) :
  completes wf_state (update_item (PStr k) val).
Proof.
  intros s Hwf. unfold update_item. rewrite M_bind_run.
  cbn [get_locations set_locations]. eexists _, _. split; [reflexivity |].
  apply wf_table_insert; [done |]. rewrite dict_lookup_set_ne by done.
  destruct (locations s !! k) as [item |] eqn:Hk; [by apply (Hwf k) | done].
Qed.

Section HealthyRun.
Variable E : env.
Hypothesis ssm_ok : ∀ n name, ∃ v, ssm_get_parameter E n name = Ok v.
Hypothesis token_ok : ∀ n url headers data,
  ∃ status_code text body token,
    requests_post E n url headers data = HttpResponse status_code text (inl body) ∧
    py_get body "access_token" = Ok (PStr token).
Hypothesis codes_ok : ∀ n,
  ∃ codes, read_excel_codes E n odscode_file_path = Ok codes ∧ codes ≠ [].
Hypothesis bundles_ok : ∀ n r text body,
  requests_get E n r = HttpResponse 200 text (inl body) →
  py_truthy body = true → well_formed_bundle body = true.
Hypothesis organisations_ok :
  ∀ org, org ∈ organisations E → ∃ v, org_identifier_value org = Ok v.

Lemma get_ssm_total (name : string) (s : state) :
  ∃ v s', get_ssm E name s = (Ok v, s') ∧ locations s' = locations s.
Proof.
  unfold get_ssm. rewrite M_bind_run. cbn [tick lift].
  destruct (ssm_ok (clock s) name) as [v ->]. by eexists _, _.
Qed.

Lemma get_headers_total (s : state) :
  ∃ headers s', get_headers E s = (Ok headers, s') ∧ locations s' = locations s.
Proof.
  unfold get_headers, get_api_token. rewrite !M_bind_run.
  destruct (get_ssm_total ssm_base_api_url s) as (base & s1 & -> & H1).
  rewrite M_bind_run.
  destruct (get_ssm_total ssm_param_id s1) as (client_id & s2 & -> & H2).
  rewrite M_bind_run.
  destruct (get_ssm_total ssm_param_sec s2) as (client_secret & s3 & -> & H3).
  rewrite M_bind_run. cbn [tick].
  match goal with
  | |- context [requests_post E ?n ?u ?h ?d] =>
      destruct (token_ok n u h d) as (status & text & body & token & -> & Htoken)
  end.
  cbn [lift]. rewrite Htoken. eexists _, _. split; [reflexivity |]. cbn. congruence.
Qed.

Lemma read_excel_values_total (s : state) :
  ∃ params s',
    read_excel_values E odscode_file_path s = (Ok params, s') ∧
    params ≠ [] ∧ locations s' = locations s.
Proof.
  unfold read_excel_values. rewrite M_bind_run. cbn [tick]. rewrite M_bind_run.
  cbn [lift clock]. destruct (codes_ok (clock s)) as (codes & -> & Hne).
  eexists _, _. split; [reflexivity |]. split; [| done].
  by destruct codes.
Qed.

Lemma read_ods_api_total (api_endpoint : string) (headers params : pyval) (s : state) :
  ∃ response s',
    read_ods_api E api_endpoint headers params s = (Ok response, s') ∧
    locations s' = locations s ∧
    (py_truthy response = true → well_formed_bundle response = true).
Proof.
  unfold read_ods_api. rewrite M_bind_run. cbn [tick].
  rewrite M_bind_run. cbn [record_request clock].
  destruct (requests_get E _ _) as [message | status text [body | message]] eqn:Hget;
    [| destruct (Z.eqb_spec status 200) as [-> | Hstatus] ..];
    eexists _, _; (split; [reflexivity |]); split; try done.
  by apply (bundles_ok _ _ _ _ Hget).
Qed.

Lemma update_records_total : completes wf_state (update_records E).
Proof.
  intros s Hwf. unfold update_records. rewrite M_bind_run. cbn [get_locations].
  apply (completes_forM wf_state); [| done].
  intros item [k Hk]%elem_of_scan.
  assert (dict_get item "id" = PStr k) as Hid
    by (unfold dict_get; by rewrite (Hwf k item Hk)).
  cbv zeta. rewrite Hid.
  destruct (py_eq_str _ _); [| apply completes_ret].
  destruct (py_truthy _); [| apply completes_ret].
  apply completes_forM. intros org Horg.
  destruct (organisations_ok org Horg) as [v Hv].
  fold (org_identifier_value org). rewrite Hv.
  intros c Hc. rewrite M_bind_run. cbn [lift].
  destruct (py_eq v _); [by apply update_item_total | by apply completes_ret].
Qed.

Lemma write_to_dynamodb_total (processed_data : list pyval) :
  Forall (λ r, ∃ d k, r = PDict d ∧ item_key d = Some k) processed_data →
  completes wf_state (write_to_dynamodb E processed_data).
Proof.
  intros Hdata. unfold write_to_dynamodb. apply completes_bind'.
  - apply completes_forM. intros item Hitem.
    rewrite Forall_forall in Hdata.
    destruct (Hdata item Hitem) as (d & k & -> & Hkey). by eapply write_item_total.
  - intros _. apply update_records_total.
Qed.

Lemma load_response_total (response_data : pyval) :
  (py_truthy response_data = true → well_formed_bundle response_data = true) →
  completes wf_state (load_response E response_data).
Proof.
  intros Hbundle s Hwf. unfold load_response.
  destruct (py_truthy response_data); [| by eexists _, _].
  destruct (process_organizations_with_total (drawn_id E s) (drawn_time E s)
              response_data (Hbundle eq_refl))
    as (organizations & records & Hentry & Hrun & Hrecords).
  rewrite M_bind_run. cbn [lift]. rewrite Hentry.
  rewrite M_bind_run, process_organizations_run, Hrun.
  apply write_to_dynamodb_total; [| done].
  eapply Forall_impl; [exact Hrecords |]. intros r (d & -> & Hkey). eauto.
Qed.

Lemma fetch_loop_total (api_endpoint : string) (headers : pyval)
    (odscode_params : list pyval) :
  ∀ last s, wf_state s →
    ∃ r s',
      fetch_loop E api_endpoint headers odscode_params last s = (Ok r, s') ∧
      wf_state s' ∧
      (odscode_params ≠ [] ∨ is_Some last → is_Some r).
Proof.
  induction odscode_params as [| p rest IH]; intros last s Hwf; cbn [fetch_loop].
  - eexists _, _. split; [reflexivity |]. split; [done |]. by intros [? | ?].
  - rewrite M_bind_run.
    destruct (read_ods_api_total api_endpoint headers p s)
      as (response & s1 & -> & Hloc & Hbundle).
    rewrite M_bind_run.
    assert (wf_state s1) as Hwf1 by (unfold wf_state; by rewrite Hloc).
    destruct (load_response_total response Hbundle s1 Hwf1) as ([] & s2 & -> & Hwf2).
    destruct (IH (Some response) s2 Hwf2) as (r & s' & -> & Hwf' & Hr).
    eexists _, _. split; [reflexivity |]. split; [done |].
    intros _. apply Hr. right. by eexists.
Qed.

Lemma fetch_organizations_total : completes wf_state (fetch_organizations E).
Proof.
  intros s Hwf. unfold fetch_organizations. rewrite M_bind_run.
  destruct (get_ssm_total ssm_base_api_url s) as (base & s1 & -> & H1).
  rewrite M_bind_run.
  destruct (get_headers_total s1) as (headers & s2 & -> & H2).
  rewrite M_bind_run.
  destruct (read_excel_values_total s2) as (params & s3 & -> & Hne & H3).
  rewrite M_bind_run.
  assert (wf_state s3) as Hwf3 by (unfold wf_state; by rewrite H3, H2, H1).
  destruct (fetch_loop_total
              (base +:+ "/fhir/OrganizationAffiliation?active=true")
              headers params None s3 Hwf3) as (r & s4 & -> & Hwf4 & Hr).
  destruct Hr as [response ->]; [by left |].
  destruct (py_truthy response); by eexists _, _.
Qed.

Lemma fetch_y_organizations_total : completes wf_state (fetch_y_organizations E).
Proof.
  intros s Hwf. unfold fetch_y_organizations. rewrite M_bind_run.
  destruct (get_ssm_total ssm_base_api_url s) as (base & s1 & -> & H1).
  rewrite M_bind_run.
  destruct (get_headers_total s1) as (headers & s2 & -> & H2).
  rewrite M_bind_run.
  destruct (read_ods_api_total (base +:+ "/fhir/Organization?active=true") headers
              (PDict [("type", PStr "RO209")]) s2)
    as (response & s3 & -> & H3 & Hbundle).
  rewrite M_bind_run.
  assert (wf_state s3) as Hwf3 by (unfold wf_state; by rewrite H3, H2, H1).
  destruct (load_response_total response Hbundle s3 Hwf3) as ([] & s4 & -> & Hwf4).
  destruct (py_truthy response); by eexists _, _.
Qed.

Lemma lambda_handler_total : completes wf_state (lambda_handler E).
Proof.
  unfold lambda_handler.
  apply completes_bind'; [by intros s Hwf; eexists _, _ |]. intros _.
  apply completes_bind'; [apply fetch_organizations_total |]. intros _.
  apply completes_bind'; [by intros s Hwf; eexists _, _ |]. intros _.
  apply fetch_y_organizations_total.
Qed.
End HealthyRun.



Example flaky_run_prints :
  stdout (lambda_handler flaky_env empty_state).2
  = [ "Fetching organizations data.";
      "An error occurred: connection reset";
      "Failed to fetch data from the ODS API.";
      "Error: 503 - unavailable";
      "Failed to fetch data from the ODS API.";
      "Failed to fetch data from the ODS API.";
      "Fetching Y organizations data.";
      "Error: 503 - unavailable";
      "Failed to fetch data from the ODS API.";
      "Failed to fetch data from the ODS API." ].
Proof. vm_compute. reflexivity. Qed.


(** * Further properties of the normaliser *)

(** ** [str.title()] *)

Lemma to_upper_idemp (c : ascii) : to_upper (to_upper c) = to_upper c.
Proof. destruct c as [[] [] [] [] [] [] [] []]; reflexivity. Qed.

Lemma to_lower_idemp (c : ascii) : to_lower (to_lower c) = to_lower c.
Proof. destruct c as [[] [] [] [] [] [] [] []]; reflexivity. Qed.

Lemma is_cased_to_upper (c : ascii) : is_cased (to_upper c) = is_cased c.
Proof. destruct c as [[] [] [] [] [] [] [] []]; reflexivity. Qed.

Lemma is_cased_to_lower (c : ascii) : is_cased (to_lower c) = is_cased c.
Proof. destruct c as [[] [] [] [] [] [] [] []]; reflexivity. Qed.

Lemma title_from_idemp (s : string) : ∀ b : bool,
  title_from b (title_from b s) = title_from b s.
Proof.
  induction s as [| c s IH]; intros b; simpl; [done |].
  destruct b.
  - by rewrite to_lower_idemp, is_cased_to_lower, IH.
  - by rewrite to_upper_idemp, is_cased_to_upper, IH.
Qed.

Lemma title_from_length (s : string) : ∀ b : bool,
  String.length (title_from b s) = String.length s.
Proof. induction s as [| c s IH]; intros b; simpl; [done |]. by rewrite IH. Qed.

Lemma title_title (s : string) : title (title s) = title s.
Proof. apply title_from_idemp. Qed.



(** ** The shape of a normalised address *)

Lemma dict_set_fresh (k : string) (v : pyval) (d : dict) :
  k ∉ keys d → dict_set k v d = d ++ [(k, v)].
Proof.
  induction d as [| [k0 v0] d IH]; simpl; [done |].
  intros [Hne Hnotin]%not_elem_of_cons.
  destruct (String.eqb k0 k) eqn:H.
  - apply String.eqb_eq in H. congruence.
  - by rewrite IH.
Qed.

Lemma capitalize_fold_pairs (d : dict) : ∀ acc : dict,
  NoDup (keys d) →
  (∀ k, k ∈ keys d → k ∉ keys acc) →
  foldlM capitalize_entry acc d = pairs ← capitalized_pairs d; Ok (acc ++ pairs).
Proof.
  induction d as [| [k0 v0] d IH]; intros acc Hnodup Hfresh.
  - simpl. by rewrite app_nil_r.
  - apply NoDup_cons in Hnodup as [Hk0 Hnodup].
    rewrite foldlM_cons, capitalize_entry_value. cbn [capitalized_pairs].
    destruct (capitalized_value k0 v0) as [[v' |] | e]; cbn [mbind outcome_bind];
      [| | done].
    + rewrite dict_set_fresh by (apply Hfresh; left).
      rewrite IH; [| done |].
      * destruct (capitalized_pairs d); [| done]. simpl. by rewrite <- app_assoc.
      * intros k Hk. unfold keys. rewrite fmap_app. cbn.
        rewrite elem_of_app, list_elem_of_singleton.
        intros [Hin | ->]; [| done]. revert Hin. apply Hfresh. by right.
    + rewrite IH; [by destruct (capitalized_pairs d) | done |].
      intros k Hk. apply Hfresh. by right.
Qed.

Lemma capitalize_address_item_pairs (d : dict) :
  NoDup (keys d) →
  capitalize_address_item (PDict d) = pairs ← capitalized_pairs d; Ok (PDict pairs).
Proof.
  intros Hnodup. unfold capitalize_address_item. cbn [py_items mbind outcome_bind].
  rewrite capitalize_fold_pairs; [| done | intros k _ Hk; by apply elem_of_nil in Hk].
  by destruct (capitalized_pairs d).
Qed.

Lemma capitalized_value_None (key : string) (value : pyval) :
  capitalized_value key value = Ok None ↔ key = "extension".
Proof.
  unfold capitalized_value. destruct (String.eqb_spec key "extension") as [-> | Hne].
  - done.
  - split; [| done]. intros H. exfalso.
    destruct value; destruct (in_city_district_country key); simpl in H;
      try discriminate.
    all: destruct (String.eqb key "line"); try discriminate.
    all: destruct (mapM py_title l); discriminate.
Qed.

Lemma capitalized_pairs_keys (d d' : dict) :
  capitalized_pairs d = Ok d' →
  keys d' = List.filter (λ k, negb (String.eqb k "extension")) (keys d).
Proof.
  revert d'. induction d as [| [k0 v0] d IH]; intros d'; cbn [capitalized_pairs].
  - by intros [= <-].
  - intros H. bind_inv H as r Hr. bind_inv H as pairs Hpairs. injection H as <-.
    cbn [keys fmap list_fmap fst List.filter]. fold (keys d).
    rewrite <- (IH pairs Hpairs).
    destruct r as [v' |].
    + destruct (String.eqb_spec k0 "extension") as [-> | Hne]; [| done].
      unfold capitalized_value in Hr. simpl in Hr. discriminate.
    + apply capitalized_value_None in Hr as ->. done.
Qed.

Lemma capitalize_address_item_Ok (d : dict) (r : pyval) :
  capitalize_address_item (PDict d) = Ok r →
  ∃ d', r = PDict d' ∧ foldlM capitalize_entry [] d = Ok d'.
Proof.
  unfold capitalize_address_item. cbn [py_items mbind outcome_bind].
  destruct (foldlM capitalize_entry [] d) as [d' |]; [| discriminate].
  intros [= <-]. eauto.
Qed.

(** X2.  A normalised address lists the keys of the input in the input's
    order, without [extension]; a key that is none of [city], [district],
    [country] and [extension], and is not a [line] holding a list, keeps the
    value it had. *)
Theorem capitalize_address_item_keeps_other_keys (d d' : dict) :
  NoDup (keys d) →
  capitalize_address_item (PDict d) = Ok (PDict d') →
  keys d' = List.filter (λ k, negb (String.eqb k "extension")) (keys d) ∧
  ∀ k v,
    dict_lookup k d = Some v →
    k ≠ "extension" →
    in_city_district_country k = false →
    (k = "line" → isinstance_list v = false) →
    dict_lookup k d' = Some v.
Proof.
  intros Hnodup Hrun. split.
  - rewrite capitalize_address_item_pairs in Hrun by done.
    bind_inv Hrun as pairs Hpairs. injection Hrun as <-.
    by apply capitalized_pairs_keys.
  - apply capitalize_address_item_Ok in Hrun as (d0 & [= <-] & Hfold).
    intros k v Hk Hext Hcdc Hline.
    rewrite (capitalize_fold_lookup d [] d' k Hnodup Hfold), Hk.
    unfold capitalized_value.
    destruct (String.eqb_spec k "extension") as [-> | _]; [done |].
    rewrite Hcdc. destruct v; try done.
    destruct (String.eqb_spec k "line") as [-> | _]; [| done].
    by specialize (Hline eq_refl).
Qed.

Lemma capitalize_address_item_keeps_other_keys_witness :
  keys [ ("line", PList [PStr "1 High Street"]); ("use", PStr "work");
         ("postalCode", PStr "ls1 4ap") ]
  = List.filter (λ k, negb (String.eqb k "extension"))
      (keys [ ("line", PList [PStr "1 high street"]); ("use", PStr "work");
              ("extension", PList []); ("postalCode", PStr "ls1 4ap") ]) ∧
  ∀ k v,
    dict_lookup k [ ("line", PList [PStr "1 high street"]); ("use", PStr "work");
                    ("extension", PList []); ("postalCode", PStr "ls1 4ap") ]
    = Some v →
    k ≠ "extension" →
    in_city_district_country k = false →
    (k = "line" → isinstance_list v = false) →
    dict_lookup k [ ("line", PList [PStr "1 High Street"]); ("use", PStr "work");
                    ("postalCode", PStr "ls1 4ap") ] = Some v.
Proof.
  apply (capitalize_address_item_keeps_other_keys
           [ ("line", PList [PStr "1 high street"]); ("use", PStr "work");
             ("extension", PList []); ("postalCode", PStr "ls1 4ap") ]).
  - apply (bool_decide_unpack _). vm_compute. reflexivity.
  - reflexivity.
Defined.

Lemma mapM_title_idemp (l lines : list pyval) :
  mapM py_title l = Ok lines → mapM py_title lines = Ok lines.
Proof.
  revert lines. induction l as [| v l IH]; intros lines; cbn [mapM].
  - by intros [= <-].
  - intros H. bind_inv H as v' Hv. bind_inv H as rest Hrest. injection H as <-.
    destruct v; try discriminate. injection Hv as <-.
    cbn [mapM py_title mbind outcome_bind]. rewrite (IH rest Hrest).
    cbn [mbind outcome_bind]. by rewrite title_title.
Qed.

Lemma capitalized_value_idemp (key : string) (value v' : pyval) :
  capitalized_value key value = Ok (Some v') →
  capitalized_value key v' = Ok (Some v').
Proof.
  unfold capitalized_value.
  destruct (String.eqb key "extension"); [discriminate |].
  destruct value; try (destruct (in_city_district_country key) eqn:Hcdc;
    cbn [py_title mbind outcome_bind]; try discriminate; intros [= <-];
    rewrite ?Hcdc; cbn [py_title mbind outcome_bind]; try done;
    by rewrite title_title).
  destruct (String.eqb key "line") eqn:Hline.
  - intros H. bind_inv H as lines Hlines. injection H as <-.
    by rewrite (mapM_title_idemp _ _ Hlines).
  - destruct (in_city_district_country key) eqn:Hcdc; [discriminate |].
    by intros [= <-].
Qed.

Lemma capitalized_pairs_idemp (d : dict) : ∀ d',
  capitalized_pairs d = Ok d' → capitalized_pairs d' = Ok d'.
Proof.
  induction d as [| [k0 v0] d IH]; intros d'; cbn [capitalized_pairs].
  - by intros [= <-].
  - intros H. bind_inv H as r Hr. bind_inv H as pairs Hpairs. injection H as <-.
    destruct r as [v' |]; [| by apply IH].
    cbn [capitalized_pairs]. rewrite (capitalized_value_idemp _ _ _ Hr).
    cbn [mbind outcome_bind]. by rewrite (IH pairs Hpairs).
Qed.



(** ** Which entries become records *)

Lemma entry_records_organization (random_id now_time : string) (resvars : pyval)
    (records : list pyval) :
  entry_records random_id now_time resvars = Ok records →
  if is_organization resvars then
    ∃ org lookup_field (d : dict),
      py_get resvars "resource" = Ok org ∧
      py_get org "id" = Ok lookup_field ∧
      records = [PDict d] ∧
      dict_lookup "lookup_field" d = Some lookup_field
  else records = [].
Proof.
  unfold entry_records, is_organization. intros H.
  bind_inv H as org Horg. rewrite Horg. cbn [mbind outcome_bind].
  bind_inv H as rt Hrt. rewrite Hrt.
  destruct (py_eq_str rt "Organization"); [| by injection H as <-].
  bind_inv H as addr Haddr. bind_inv H as lookup_field Hid.
  bind_inv H as name Hname. bind_inv H as name' Htitle. injection H as <-.
  eexists org, lookup_field, _. split_and!; try done.
  by destruct (canonical_record_fields random_id now_time lookup_field name' addr
                 (try_except (uprn_path org) (PStr "NA"))) as (_ & -> & _).
Qed.

(** X4.  The records that [process_organizations] returns are, in the order
    of the input, one per entry whose resource type is [Organization], each
    with the [id] of that organisation as its [lookup_field]; entries of any
    other resource type leave no record. *)
Theorem process_organizations_one_record_per_organization (E : env)
    (entries records : list pyval) (s s' : state) :
  process_organizations E (PList entries) s = (Ok records, s') →
  Forall2
    (λ resvars r,
       ∃ org lookup_field (d : dict),
         py_get resvars "resource" = Ok org ∧
         py_get org "id" = Ok lookup_field ∧
         r = PDict d ∧
         dict_lookup "lookup_field" d = Some lookup_field)
    (List.filter is_organization entries) records.
Proof.
  rewrite process_organizations_run, process_organizations_with_records.
  intros [= H _]. bind_inv H as per_entry Hper. injection H as <-.
  apply mapM_Ok_Forall2 in Hper.
  induction Hper as [| e recs entries per_entry He _ IH]; cbn [List.filter concat].
  - constructor.
  - apply entry_records_organization in He.
    destruct (is_organization e).
    + destruct He as (org & lf & d & Hres & Hid & -> & Hlf).
      cbn [app]. constructor; [| done]. eauto 10.
    + by subst recs.
Qed.

Lemma process_organizations_one_record_per_organization_witness :
  Forall2
    (λ resvars r,
       ∃ org lookup_field (d : dict),
         py_get resvars "resource" = Ok org ∧
         py_get org "id" = Ok lookup_field ∧
         r = PDict d ∧
         dict_lookup "lookup_field" d = Some lookup_field)
    (List.filter is_organization
       [ PDict [("resource", PDict [("resourceType", PStr "Endpoint")])];
         PDict example_entry ])
    [PDict (canonical_record (drawn_id example_env empty_state)
              (drawn_time example_env empty_state)
              (PStr "ABC123") (PStr "St Mary Clinic")
              [PDict [ ("line", PList [PStr "1 High Street"; PStr "Floor 2"]);
                       ("city", PStr "Leeds");
                       ("district", PStr "West Yorkshire");
                       ("country", PStr "England");
                       ("postalCode", PStr "ls1 4ap") ]]
              (PStr "100023336956"))].
Proof.
  apply (process_organizations_one_record_per_organization example_env _ _
           empty_state (after_draws empty_state)).
  reflexivity.
Defined.

Lemma mapM_Raise {A B} (f : A → outcome B) (l : list A) (x : A) (e : exn) :
  x ∈ l → f x = Raise e → ∃ e', mapM f l = Raise e'.
Proof.
  induction l as [| y l IH]; intros Hin Hx.
  - by apply elem_of_nil in Hin.
  - cbn [mapM]. apply elem_of_cons in Hin as [<- | Hin].
    + rewrite Hx. eauto.
    + destruct (f y); [| eauto]. cbn [mbind outcome_bind].
      destruct (IH Hin Hx) as [e' ->]. eauto.
Qed.

(** X5.  One bad organisation spoils the batch: when some entry of the
    response is an [Organization] whose [name] is not a str (or is absent),
    or whose [address] is [None], a number or a bool, the normaliser raises,
    and [load_response] ends with that error without writing anything. *)
Theorem load_response_all_or_nothing (E : env) (body : dict)
    (entries : list pyval) (resvars org : dict) (s : state) :
  dict_lookup "entry" body = Some (PList entries) →
  PDict resvars ∈ entries →
  dict_lookup "resource" resvars = Some (PDict org) →
  dict_lookup "resourceType" org = Some (PStr "Organization") →
  isinstance_str (dict_get org "name") = false
  ∨ (∃ v, dict_lookup "address" org = Some v ∧ py_iter v = Raise TypeError) →
  ∃ e s',
    load_response E (PDict body) s = (Raise e, s') ∧
    locations s' = locations s ∧ sent s' = sent s ∧ stdout s' = stdout s.
Proof.
  intros Hentry Hin Hres Hrt Hbad.
  assert (∃ e, entry_records (drawn_id E s) (drawn_time E s) (PDict resvars) = Raise e)
    as [e He].
  { unfold entry_records, normalised_address. rewrite py_get_dict. unfold dict_get at 1.
    rewrite Hres. cbn [default from_option id mbind outcome_bind].
    rewrite !py_get_dict. cbn [mbind outcome_bind py_get_default].
    unfold dict_get at 1. rewrite Hrt. cbn [default from_option id py_eq_str].
    rewrite String.eqb_refl.
    destruct Hbad as [Hname | (v & Hv & Hiter)].
    - destruct (py_iter _) as [items |]; cbn [mbind outcome_bind]; [| eauto].
      destruct (mapM capitalize_address_item _); cbn [mbind outcome_bind]; [| eauto].
      destruct (dict_get org "name"); try discriminate; cbn; eauto.
    - rewrite Hv. cbn [default from_option id]. rewrite Hiter. eauto. }
  destruct (mapM_Raise _ _ _ _ Hin He) as [e' He'].
  unfold load_response. destruct body as [| kv body]; [discriminate |].
  cbn [py_truthy]. rewrite M_bind_run. cbn [lift py_get_default]. rewrite Hentry.
  cbn [default from_option id]. rewrite M_bind_run, process_organizations_run,
    process_organizations_with_records, He'.
  cbn [mbind outcome_bind lift]. eexists _, _. split_and!; reflexivity.
Qed.

Lemma load_response_all_or_nothing_witness :
  ∃ e s',
    load_response example_env
      (PDict [("entry",
               PList [ PDict example_entry;
                       PDict [("resource",
                               PDict [("resourceType", PStr "Organization");
                                      ("id", PStr "ABC124")])] ])])
      empty_state = (Raise e, s') ∧
    locations s' = locations empty_state ∧ sent s' = sent empty_state ∧
    stdout s' = stdout empty_state.
Proof.
  apply (load_response_all_or_nothing example_env
           [("entry",
             PList [ PDict example_entry;
                     PDict [("resource",
                             PDict [("resourceType", PStr "Organization");
                                    ("id", PStr "ABC124")])] ])]
           [ PDict example_entry;
             PDict [("resource",
                     PDict [("resourceType", PStr "Organization");
                            ("id", PStr "ABC124")])] ]
           [("resource", PDict [("resourceType", PStr "Organization");
                                ("id", PStr "ABC124")])]
           [("resourceType", PStr "Organization"); ("id", PStr "ABC124")]).
  - reflexivity.
  - right. left.
  - reflexivity.
  - reflexivity.
  - left. reflexivity.
Defined.

(** X6.  An organisation without an [address] key is not an error: its
    record has an empty [Address] list and no [UPRN] key. *)
Theorem process_organizations_without_address (E : env) (s : state)
    (resvars org : dict) (name : string) :
  dict_lookup "resource" resvars = Some (PDict org) →
  dict_lookup "resourceType" org = Some (PStr "Organization") →
  dict_lookup "name" org = Some (PStr name) →
  dict_lookup "address" org = None →
  ∃ r : dict,
    process_organizations E (PList [PDict resvars]) s = (Ok [PDict r], after_draws s) ∧
    dict_lookup "Address" r = Some (PList []) ∧
    dict_lookup "UPRN" r = None ∧
    dict_lookup "name" r = Some (PStr (title name)) ∧
    dict_lookup "lookup_field" r = Some (dict_get org "id").
Proof.
  intros Hres Hrt Hname Haddr.
  rewrite process_organizations_run, process_organizations_with_records.
  cbn [mapM]. unfold entry_records, normalised_address, uprn_path.
  rewrite py_get_dict. unfold dict_get at 1. rewrite Hres.
  cbn [default from_option id mbind outcome_bind].
  rewrite !py_get_dict. cbn [mbind outcome_bind py_get_default].
  unfold dict_get at 1. rewrite Hrt. cbn [default from_option id py_eq_str].
  rewrite String.eqb_refl, Haddr. cbn [default from_option id py_iter List.filter mapM
    mbind outcome_bind].
  assert (dict_get org "name" = PStr name) as -> by (unfold dict_get; by rewrite Hname).
  assert (dict_get org "address" = PNone) as -> by (unfold dict_get; by rewrite Haddr).
  cbn [py_title py_index mbind outcome_bind try_except concat app].
  eexists. split; [reflexivity |].
  by destruct (canonical_record_fields (drawn_id E s) (drawn_time E s)
                 (dict_get org "id") (PStr (title name)) [] (PStr "NA"))
    as (_ & ? & ? & ? & _ & _ & _ & ?).
Qed.

Lemma process_organizations_without_address_witness :
  ∃ r : dict,
    process_organizations example_env
      (PList [PDict [("resource",
                      PDict [("resourceType", PStr "Organization");
                             ("id", PStr "ABC125"); ("name", PStr "the surgery")])]])
      empty_state = (Ok [PDict r], after_draws empty_state) ∧
    dict_lookup "Address" r = Some (PList []) ∧
    dict_lookup "UPRN" r = None ∧
    dict_lookup "name" r = Some (PStr (title "the surgery")) ∧
    dict_lookup "lookup_field" r
    = Some (dict_get [("resourceType", PStr "Organization");
                      ("id", PStr "ABC125"); ("name", PStr "the surgery")] "id").
Proof.
  apply (process_organizations_without_address example_env empty_state
           [("resource", PDict [("resourceType", PStr "Organization");
                                ("id", PStr "ABC125"); ("name", PStr "the surgery")])]
           [("resourceType", PStr "Organization");
            ("id", PStr "ABC125"); ("name", PStr "the surgery")] "the surgery");
    reflexivity.
Defined.

(** * Further properties of the store *)

(** ** The existence check *)

Lemma scan_lookup_field_elem (t : gmap string dict) (v : pyval) (item : dict) :
  item ∈ scan_lookup_field t v ↔
  (∃ k, t !! k = Some item) ∧ dict_lookup "lookup_field" item = Some v.
Proof.
  unfold scan_lookup_field.
  rewrite list_elem_of_In, List.filter_In, <- list_elem_of_In, elem_of_scan.
  rewrite bool_decide_eq_true. tauto.
Qed.

Lemma scan_lookup_field_found (t : gmap string dict) (v : pyval) :
  (match scan_lookup_field t v with [] => false | _ => true end) = true ↔
  ∃ k item, t !! k = Some item ∧ dict_lookup "lookup_field" item = Some v.
Proof.
  split.
  - destruct (scan_lookup_field t v) as [| item l] eqn:Hscan; [discriminate |].
    intros _. assert (item ∈ scan_lookup_field t v) as Hin by (rewrite Hscan; left).
    apply scan_lookup_field_elem in Hin as [[k Hk] Hv]. eauto.
  - intros (k & item & Hk & Hv).
    assert (item ∈ scan_lookup_field t v) as Hin
      by (apply scan_lookup_field_elem; eauto).
    destruct (scan_lookup_field t v); [by apply elem_of_nil in Hin | done].
Qed.




(** ** The cross-linker as a map over the table *)

Lemma update_item_run (k : string) (val : pyval) (s : state) :
  update_item (PStr k) val s =
  (Ok tt,
   with_locations s
     (<[k := dict_set "managingOrganization" val
               (default [("id", PStr k)] (locations s !! k))]> (locations s))).
Proof. reflexivity. Qed.

Lemma with_locations_id (s : state) : with_locations s (locations s) = s.
Proof. by destruct s. Qed.

Lemma update_records_loops (E : env) :
  update_records E = t ← get_locations; forM_ (map_to_list t).*2 (link_body E).
Proof. reflexivity. Qed.

(** The inner loop, on the record under key [k]. *)
Lemma link_orgs_run (k : string) (lookup_field_value : pyval)
    (org_items : list dict) :
  (∀ org, org ∈ org_items → ∃ v, org_identifier_value org = Ok v) →
  ∀ (s : state) (cur : dict),
    locations s !! k = Some cur →
    forM_ org_items (link_org_body (PStr k) lookup_field_value) s
    = (Ok tt,
       with_locations s
         (<[k := fold_left (link_step lookup_field_value) org_items cur]>
            (locations s))).
Proof.
  induction org_items as [| org org_items IH]; intros Hok s cur Hcur.
  - cbn [forM_ fold_left]. rewrite insert_id by done. by rewrite with_locations_id.
  - rewrite forM_cons, M_bind_run. cbn [fold_left]. unfold link_step at 2.
    unfold link_org_body at 1.
    destruct (Hok org) as [v Hv]; [left |].
    fold (org_identifier_value org). rewrite Hv, M_bind_run. cbn [lift].
    assert (∀ o, o ∈ org_items → ∃ v, org_identifier_value o = Ok v) as Hok'
      by (intros o Ho; apply Hok; by right).
    destruct (py_eq v lookup_field_value).
    + cbv zeta. rewrite update_item_run, Hcur. cbn [default from_option id].
      rewrite (IH Hok' _ (dict_set "managingOrganization" (dict_get org "id") cur));
        [| apply lookup_insert_eq].
      cbn. unfold with_locations. cbn. by rewrite insert_insert_eq.
    + by apply IH.
Qed.

Lemma link_body_run (E : env) (k : string) (item : dict) (s : state) :
  (∀ org, org ∈ organisations E → ∃ v, org_identifier_value org = Ok v) →
  dict_get item "id" = PStr k →
  locations s !! k = Some item →
  link_body E item s
  = (Ok tt,
     with_locations s (<[k := link_item (organisations E) item]> (locations s))).
Proof.
  intros Hok Hid Hcur. unfold link_body, link_item, link_candidate.
  cbv zeta. rewrite Hid.
  destruct (py_eq_str _ _); cbn [andb].
  - destruct (py_truthy _).
    + by apply link_orgs_run.
    + by rewrite insert_id, with_locations_id.
  - by rewrite insert_id, with_locations_id.
Qed.

(** The outer loop, over the scanned items. *)
Lemma link_items_run (E : env) (l : list (string * dict)) :
  (∀ org, org ∈ organisations E → ∃ v, org_identifier_value org = Ok v) →
  NoDup l.*1 →
  (∀ k item, (k, item) ∈ l → dict_get item "id" = PStr k) →
  ∀ s : state,
    (∀ k item, (k, item) ∈ l → locations s !! k = Some item) →
    ∃ t',
      forM_ l.*2 (link_body E) s = (Ok tt, with_locations s t') ∧
      ∀ k, t' !! k =
           match (list_to_map l : gmap string dict) !! k with
           | Some item => Some (link_item (organisations E) item)
           | None => locations s !! k
           end.
Proof.
  intros Hok. induction l as [| [k0 item0] l IH]; intros Hnodup Hid s Hs.
  - exists (locations s). cbn [fmap list_fmap forM_]. rewrite with_locations_id.
    split; [done |]. intros k. unfold list_to_map. cbn [foldr].
    by rewrite lookup_empty.
  - rewrite fmap_cons in Hnodup. apply NoDup_cons in Hnodup as [Hk0 Hnodup].
    rewrite fmap_cons, forM_cons, M_bind_run. cbn [snd].
    rewrite (link_body_run E k0 item0 s Hok); [| apply Hid; left | apply Hs; left].
    destruct (IH Hnodup) with (s := with_locations s
                (<[k0 := link_item (organisations E) item0]> (locations s)))
      as (t' & -> & Ht').
    + intros k item Hin. apply Hid. by right.
    + intros k item Hin. cbn [with_locations locations].
      rewrite lookup_insert_ne; [apply Hs; by right |].
      intros <-. apply Hk0. apply list_elem_of_fmap. by exists (k0, item).
    + exists t'. split; [done |]. intros k. rewrite Ht', list_to_map_cons.
      cbn [with_locations locations fst snd].
      destruct (decide (k = k0)) as [-> | Hne].
      * rewrite (not_elem_of_list_to_map_1 _ k0) by done.
        by rewrite !lookup_insert_eq.
      * rewrite !(lookup_insert_ne _ k0 k) by done. done.
Qed.



(** A property of the table that survives every patch of a candidate record
    survives the cross-linker, however it ends. *)
Lemma update_records_keeps_table (E : env) (P : gmap string dict → Prop)
    (s s' : state) (r : outcome unit) :
  wf_table (locations s) →
  P (locations s) →
  (∀ k item val t,
     locations s !! k = Some item → link_candidate item = true → P t →
     P (<[k := dict_set "managingOrganization" val
                 (default [("id", PStr k)] (t !! k))]> t)) →
  update_records E s = (r, s') →
  P (locations s').
Proof.
  intros Hwf HP Hstep. rewrite update_records_loops, M_bind_run. cbn [get_locations].
  apply (keeps_forM (λ c, P (locations c))); [| done].
  intros item [k Hk]%elem_of_scan. unfold link_body, link_candidate in *.
  assert (dict_get item "id" = PStr k) as Hid
    by (unfold dict_get; by rewrite (Hwf k item Hk)).
  cbv zeta. rewrite Hid.
  destruct (py_eq_str _ _) eqn:Hempty; [| apply keeps_ret].
  destruct (py_truthy _) eqn:Htruthy; [| apply keeps_ret].
  apply keeps_forM. intros org _. unfold link_org_body. apply keeps_bind;
    [apply keeps_lift |].
  intros v. apply keeps_if; [| apply keeps_ret].
  intros c rc c' Hc. cbv zeta. rewrite update_item_run. intros [= _ <-].
  cbn [with_locations locations]. apply (Hstep k item); [done | | done].
  by rewrite Hempty, Htruthy.
Qed.

(** X10.  The cross-linker, however it ends, leaves a record as it is when
    the record already has a [managingOrganization] other than the empty
    string, or has a falsy [lookup_field] (absent, [None], empty). *)
Theorem update_records_skips_linked (E : env) (s s' : state) (r : outcome unit)
    (k : string) (item : dict) :
  wf_table (locations s) →
  update_records E s = (r, s') →
  locations s !! k = Some item →
  link_candidate item = false →
  locations s' !! k = Some item.
Proof.
  intros Hwf Hrun Hk Hskip.
  apply (update_records_keeps_table E (λ t, t !! k = Some item) s s' r); try done.
  intros k0 item0 val t Hk0 Hcand Ht.
  rewrite lookup_insert_ne; [done |]. intros ->. congruence.
Qed.

Lemma update_records_skips_linked_witness :
  locations (update_records example_env
               (with_locations empty_state
                  {[ "9999999999999999" :=
                       dict_set "managingOrganization" (PStr "org-9")
                         example_record_again ]})).2
  !! "9999999999999999"
  = Some (dict_set "managingOrganization" (PStr "org-9") example_record_again).
Proof.
  apply (update_records_skips_linked example_env
           (with_locations empty_state
              {[ "9999999999999999" :=
                   dict_set "managingOrganization" (PStr "org-9")
                     example_record_again ]})
           _ (update_records example_env
                (with_locations empty_state
                   {[ "9999999999999999" :=
                        dict_set "managingOrganization" (PStr "org-9")
                          example_record_again ]})).1).
  - cbn [with_locations locations].
    intros k item [<- <-]%lookup_singleton_Some. reflexivity.
  - vm_compute. reflexivity.
  - cbn [with_locations locations]. apply lookup_singleton_eq.
  - reflexivity.
Defined.

(** ** How many records a response can add *)

Lemma write_item_keeps_wf (item : pyval) : keeps wf_state (write_item item).
Proof.
  intros s r s' Hwf Hrun.
  destruct (write_item_checks_first _ _ _ _ Hrun)
    as [Heq | (d & k & -> & Hkey & _ & Heq)]; unfold wf_state; rewrite Heq; [done |].
  apply wf_table_insert; [done | by apply item_key_Some].
Qed.

Lemma write_items_shared_key (k : string) (processed_data : list pyval)
    (s s' : state) (r : outcome unit) :
  Forall (λ item, ∃ d, item = PDict d ∧ item_key d = Some k) processed_data →
  forM_ processed_data write_item s = (r, s') →
  ∀ k', k' ≠ k → locations s' !! k' = locations s !! k'.
Proof.
  intros Hdata Hrun k' Hne. revert Hrun.
  apply (keeps_forM (λ c, locations c !! k' = locations s !! k')); [| done].
  intros item Hitem c rc c' Hc Hrun. rewrite Forall_forall in Hdata.
  destruct (Hdata item Hitem) as (d & -> & Hkey).
  destruct (write_item_checks_first _ _ _ _ Hrun)
    as [-> | (d0 & k0 & [= <-] & Hkey0 & _ & ->)]; [done |].
  rewrite lookup_insert_ne; [done |]. congruence.
Qed.

(** X11.  One response adds at most one record to the table, however many
    organisations it lists and however the call ends: all its records carry
    the one id drawn for the call, so a key that was free before and is not
    that id is still free afterwards. *)
Theorem load_response_adds_at_most_one_key (E : env) (response_data : pyval)
    (s s' : state) (r : outcome unit) (k : string) :
  wf_table (locations s) →
  load_response E response_data s = (r, s') →
  k ≠ drawn_id E s →
  locations s !! k = None →
  locations s' !! k = None.
Proof.
  intros Hwf Hrun Hk Hfree. unfold load_response in Hrun.
  destruct (py_truthy response_data); [| by injection Hrun as _ <-].
  rewrite M_bind_run in Hrun. cbn [lift] in Hrun.
  destruct (py_get_default response_data "entry" (PList [])) as [organizations |];
    [| by injection Hrun as _ <-].
  rewrite M_bind_run, process_organizations_run in Hrun.
  destruct (process_organizations_with _ _ organizations) as [records |] eqn:Hrecords;
    [| by injection Hrun as _ <-].
  assert (Forall (λ item, ∃ d, item = PDict d ∧ item_key d = Some (drawn_id E s))
            records) as Hkeys.
  { apply process_organizations_with_canonical in Hrecords.
    eapply Forall_impl; [exact Hrecords |].
    intros x (lf & name & addr & uprn & ->). eexists. split; [done |].
    unfold item_key.
    by destruct (canonical_record_fields (drawn_id E s) (drawn_time E s)
                   lf name addr uprn) as [-> _]. }
  unfold write_to_dynamodb in Hrun. rewrite M_bind_run in Hrun.
  destruct (forM_ records write_item (after_draws s)) as [[[] | e] s1] eqn:Hwrite.
  - assert (wf_table (locations s1)) as Hwf1
      by (revert Hwrite; apply (keeps_forM wf_state);
          [intros; apply write_item_keeps_wf | done]).
    assert (locations s1 !! k = None) as Hfree1
      by (by rewrite (write_items_shared_key _ _ _ _ _ Hkeys Hwrite k Hk)).
    apply (update_records_keeps_table E (λ t, t !! k = None) s1 s' r); try done.
    intros k0 item0 val t Hk0 _ Ht. rewrite lookup_insert_ne; [done |].
    intros ->. congruence.
  - injection Hrun as _ <-.
    by rewrite (write_items_shared_key _ _ _ _ _ Hkeys Hwrite k Hk).
Qed.

Lemma load_response_adds_at_most_one_key_witness :
  locations (load_response example_env two_org_bundle empty_state).2 !! "XYZ789" = None.
Proof.
  apply (load_response_adds_at_most_one_key example_env two_org_bundle empty_state
           _ (load_response example_env two_org_bundle empty_state).1).
  - unfold empty_state. cbn [locations]. intros k item H.
    rewrite lookup_empty in H. discriminate.
  - vm_compute. reflexivity.
  - vm_compute. discriminate.
  - reflexivity.
Defined.

(** Two organisations in one response: the second put replaces the first. *)
Example two_orgs_one_record :
  (λ kv, (kv.1, dict_lookup "lookup_field" kv.2))
    <$> map_to_list (locations (load_response example_env two_org_bundle empty_state).2)
  = [("1234567890123456", Some (PStr "XYZ789"))].
Proof. vm_compute. reflexivity. Qed.

(** ** What a whole invocation keeps *)

Section FrameTable.
Variable E : env.
Variable I : state → Prop.
Hypothesis I_tick : keeps I tick.
Hypothesis I_print : ∀ line, keeps I (print line).
Hypothesis I_record_request : ∀ r, keeps I (record_request r).
Hypothesis I_write_item : ∀ item, keeps I (write_item item).
Hypothesis I_update_item : ∀ k val, keeps I (update_item k val).

Lemma table_keeps_update_records : keeps I (update_records E).
Proof. unfold update_records. repeat first [ apply I_update_item | keeps_step ]. Qed.

Lemma table_keeps_write_to_dynamodb (processed_data : list pyval) :
  keeps I (write_to_dynamodb E processed_data).
Proof.
  unfold write_to_dynamodb.
  repeat first [ apply I_write_item | apply table_keeps_update_records | keeps_step ].
Qed.

Lemma table_keeps_load_response (response_data : pyval) :
  keeps I (load_response E response_data).
Proof.
  unfold load_response, process_organizations.
  repeat first [ apply table_keeps_write_to_dynamodb | apply I_print | keeps_step ].
Qed.

Lemma table_keeps_get_headers : keeps I (get_headers E).
Proof. unfold get_headers, get_api_token, get_ssm. repeat keeps_step. Qed.

Lemma table_keeps_read_ods_api (api_endpoint : string) (headers params : pyval) :
  keeps I (read_ods_api E api_endpoint headers params).
Proof.
  unfold read_ods_api. repeat first [ apply I_print | apply I_record_request | keeps_step ].
Qed.

Lemma table_keeps_fetch_loop (api_endpoint : string) (headers : pyval)
    (odscode_params : list pyval) :
  ∀ last, keeps I (fetch_loop E api_endpoint headers odscode_params last).
Proof.
  induction odscode_params as [| p rest IH]; intros last; cbn [fetch_loop].
  - apply keeps_ret.
  - repeat first [ apply table_keeps_read_ods_api | apply table_keeps_load_response
                 | apply IH | keeps_step ].
Qed.

Lemma table_keeps_lambda_handler : keeps I (lambda_handler E).
Proof.
  unfold lambda_handler, fetch_organizations, fetch_y_organizations,
    read_excel_values, get_ssm.
  repeat first [ apply table_keeps_get_headers | apply table_keeps_fetch_loop
               | apply table_keeps_read_ods_api | apply table_keeps_load_response
               | apply I_print | keeps_step ].
Qed.
End FrameTable.

Lemma keeps_table_only (P : gmap string dict → Prop) {A} (c : M A) :
  (∀ s r s', c s = (r, s') → locations s' = locations s) →
  keeps (λ s, P (locations s)) c.
Proof. intros Hc s r s' HP Hrun. by rewrite (Hc s r s' Hrun). Qed.

Lemma lambda_handler_keeps_table (E : env) (P : gmap string dict → Prop) :
  (∀ item, keeps (λ s, P (locations s)) (write_item item)) →
  (∀ k val, keeps (λ s, P (locations s)) (update_item k val)) →
  keeps (λ s, P (locations s)) (lambda_handler E).
Proof.
  intros Hwrite Hupdate. apply table_keeps_lambda_handler; try done.
  - apply keeps_table_only. by intros s r s' [= _ <-].
  - intros line. apply keeps_table_only. by intros s r s' [= _ <-].
  - intros req. apply keeps_table_only. by intros s r s' [= _ <-].
Qed.

(** X12.  An invocation never deletes: whatever the outside world answers
    and however the invocation ends, every key of the table before it is a
    key of the table after it. *)
Theorem lambda_handler_never_deletes (E : env) (s s' : state) (r : outcome unit)
    (k : string) :
  lambda_handler E s = (r, s') →
  is_Some (locations s !! k) →
  is_Some (locations s' !! k).
Proof.
  intros Hrun Hk. revert Hrun.
  apply (lambda_handler_keeps_table E (λ t, is_Some (t !! k))); [| | done].
  - intros item c rc c' Hc Hrun.
    destruct (write_item_checks_first _ _ _ _ Hrun)
      as [-> | (d & k0 & _ & _ & _ & ->)]; [done |].
    rewrite lookup_insert_is_Some. destruct (decide (k0 = k)); auto.
  - intros k0 val c rc c' Hc. unfold update_item.
    destruct k0; try by intros [= _ <-].
    rewrite M_bind_run. cbn [get_locations set_locations]. intros [= _ <-]. cbn.
    rewrite lookup_insert_is_Some. destruct (decide (s0 = k)); auto.
Qed.

Lemma lambda_handler_never_deletes_witness :
  is_Some (locations (lambda_handler flaky_env linked_state).2 !! "1234567890123456").
Proof.
  apply (lambda_handler_never_deletes flaky_env linked_state _
           (lambda_handler flaky_env linked_state).1).
  - vm_compute. reflexivity.
  - vm_compute. eexists. reflexivity.
Defined.



(** * Further properties of the token client and the fetch functions *)

Lemma get_ssm_run (E : env) (name : string) (s : state) :
  get_ssm E name s = (ssm_get_parameter E (clock s) name, ticks 1 s).
Proof. reflexivity. Qed.

Lemma ticks_ticks (n m : nat) (s : state) : ticks n (ticks m s) = ticks (n + m) s.
Proof. unfold ticks. cbn. f_equal. lia. Qed.

(** X14.  When [get_headers] returns, the headers are exactly one
    [Authorization] entry holding [Bearer ] followed by the [access_token] of
    the token answer, which is a str; getting them took four external calls
    (three parameter reads and the token request) and touched neither the
    table nor the output nor the directory. *)
Theorem get_headers_bearer (E : env) (s s' : state) (headers : pyval) :
  get_headers E s = (Ok headers, s') →
  s' = ticks 4 s ∧
  ∃ url request_headers data status_code text body token,
    requests_post E (3 + clock s) url request_headers data
    = HttpResponse status_code text (inl body) ∧
    py_get body "access_token" = Ok (PStr token) ∧
    headers = PDict [("Authorization", PStr ("Bearer " +:+ token))].
Proof.
  unfold get_headers, get_api_token.
  intros (token & s4 & Htoken & Hheaders)%M_bind_Ok.
  apply M_bind_Ok in Htoken as (base & s1 & Hbase & Htoken).
  apply M_bind_Ok in Htoken as (client_id & s2 & Hid & Htoken).
  apply M_bind_Ok in Htoken as (client_secret & s3 & Hsec & Htoken).
  rewrite get_ssm_run in Hbase, Hid, Hsec.
  injection Hbase as _ <-. injection Hid as _ <-. injection Hsec as _ <-.
  rewrite M_bind_run in Htoken. cbn [tick ticks clock] in Htoken.
  destruct (requests_post E _ _ _ _) as [| status text [body |]] eqn:Hpost;
    try discriminate.
  cbn [lift] in Htoken. injection Htoken as Hget <-.
  destruct token; try discriminate. injection Hheaders as <- <-.
  split; [unfold ticks; cbn; f_equal |]. eauto 10.
Qed.

Lemma get_headers_bearer_witness :
  ticks 4 empty_state = ticks 4 empty_state ∧
  ∃ url request_headers data status_code text body token,
    requests_post example_env (3 + clock empty_state) url request_headers data
    = HttpResponse status_code text (inl body) ∧
    py_get body "access_token" = Ok (PStr token) ∧
    PDict [("Authorization", PStr "Bearer tok")]
    = PDict [("Authorization", PStr ("Bearer " +:+ token))].
Proof.
  apply (get_headers_bearer example_env empty_state). reflexivity.
Defined.

Section NoToken.
Variable E : env.
Hypothesis ssm_ok : ∀ n name, ∃ v, ssm_get_parameter E n name = Ok v.
Hypothesis no_token : ∀ n url headers data,
  ∃ status_code text body token,
    requests_post E n url headers data = HttpResponse status_code text (inl body) ∧
    py_get body "access_token" = Ok token ∧
    isinstance_str token = false.

Lemma get_headers_no_token (s : state) :
  get_headers E s = (Raise TypeError, ticks 4 s).
Proof.
  unfold get_headers, get_api_token. rewrite !M_bind_run, get_ssm_run.
  destruct (ssm_ok (clock s) ssm_base_api_url) as [base ->].
  rewrite M_bind_run, get_ssm_run.
  destruct (ssm_ok (clock (ticks 1 s)) ssm_param_id) as [client_id ->].
  rewrite M_bind_run, get_ssm_run.
  destruct (ssm_ok (clock (ticks 1 (ticks 1 s))) ssm_param_sec) as [client_secret ->].
  rewrite M_bind_run. cbn [tick].
  match goal with
  | |- context [requests_post E ?n ?u ?h ?d] =>
      destruct (no_token n u h d) as (status & text & body & token & -> & Hget & Hstr)
  end.
  cbn [lift]. rewrite Hget. destruct token; try discriminate; reflexivity.
Qed.

Lemma lambda_handler_no_token (s : state) :
  lambda_handler E s
  = (Raise TypeError, ticks 5 (printed "Fetching organizations data." s)).
Proof.
  unfold lambda_handler, fetch_organizations. rewrite M_bind_run. cbn [print].
  fold (printed "Fetching organizations data." s).
  rewrite !M_bind_run, get_ssm_run.
  destruct (ssm_ok (clock (printed "Fetching organizations data." s))
              ssm_base_api_url) as [base ->].
  rewrite M_bind_run, get_headers_no_token. by rewrite ticks_ticks.
Qed.
End NoToken.

(** X15.  Without a token nothing is fetched: when the parameter store
    answers and [access_token] is missing from the token answer (or is not a
    str), the invocation ends with [TypeError] after the first headline and
    five external calls, with no directory request sent and the table as it
    was; the second run is not started. *)
Theorem lambda_handler_without_token (E : env) (s : state) :
  (∀ n name, ∃ v, ssm_get_parameter E n name = Ok v) →
  (∀ n url headers data,
     ∃ status_code text body token,
       requests_post E n url headers data = HttpResponse status_code text (inl body) ∧
       py_get body "access_token" = Ok token ∧
       isinstance_str token = false) →
  ∃ s',
    lambda_handler E s = (Raise TypeError, s') ∧
    sent s' = sent s ∧
    locations s' = locations s ∧
    stdout s' = stdout s ++ ["Fetching organizations data."] ∧
    clock s' = 5 + clock s.
Proof.
  intros Hssm Htoken. eexists. split; [by apply lambda_handler_no_token |]. done.
Qed.

Lemma lambda_handler_without_token_witness :
  ∃ s',
    lambda_handler env_no_token empty_state = (Raise TypeError, s') ∧
    sent s' = sent empty_state ∧
    locations s' = locations empty_state ∧
    stdout s' = stdout empty_state ++ ["Fetching organizations data."] ∧
    clock s' = 5 + clock empty_state.
Proof.
  apply (lambda_handler_without_token env_no_token empty_state).
  - intros n name. eexists. reflexivity.
  - intros n url headers data. eexists _, _, _, _. split_and!; reflexivity.
Defined.

Section NoCodes.
Variable E : env.
Hypothesis ssm_ok : ∀ n name, ∃ v, ssm_get_parameter E n name = Ok v.
Hypothesis token_ok : ∀ n url headers data,
  ∃ status_code text body token,
    requests_post E n url headers data = HttpResponse status_code text (inl body) ∧
    py_get body "access_token" = Ok (PStr token).
Hypothesis no_codes : ∀ n, read_excel_codes E n odscode_file_path = Ok [].

Lemma get_headers_run_ok (s : state) :
  ∃ headers, get_headers E s = (Ok headers, ticks 4 s).
Proof.
  unfold get_headers, get_api_token. rewrite !M_bind_run, get_ssm_run.
  destruct (ssm_ok (clock s) ssm_base_api_url) as [base ->].
  rewrite M_bind_run, get_ssm_run.
  destruct (ssm_ok (clock (ticks 1 s)) ssm_param_id) as [client_id ->].
  rewrite M_bind_run, get_ssm_run.
  destruct (ssm_ok (clock (ticks 1 (ticks 1 s))) ssm_param_sec) as [client_secret ->].
  rewrite M_bind_run. cbn [tick].
  match goal with
  | |- context [requests_post E ?n ?u ?h ?d] =>
      destruct (token_ok n u h d) as (status & text & body & token & -> & Hget)
  end.
  cbn [lift]. rewrite Hget. by eexists.
Qed.

Lemma fetch_organizations_no_codes (s : state) :
  fetch_organizations E s = (Raise UnboundLocalError, ticks 6 s).
Proof.
  unfold fetch_organizations. rewrite !M_bind_run, get_ssm_run.
  destruct (ssm_ok (clock s) ssm_base_api_url) as [base ->].
  rewrite M_bind_run.
  destruct (get_headers_run_ok (ticks 1 s)) as [headers ->].
  rewrite M_bind_run. unfold read_excel_values. rewrite M_bind_run. cbn [tick].
  rewrite M_bind_run. cbn [lift clock]. rewrite no_codes.
  cbn [fmap list_fmap fetch_loop]. rewrite !ticks_ticks.
  unfold ticks, raise. cbn. reflexivity.
Qed.
End NoCodes.

(** X16.  An empty spreadsheet is an error, not an empty run: when the
    parameter store and the token endpoint answer and the spreadsheet lists
    no code, [fetch_organizations] ends with [UnboundLocalError] after six
    external calls, having sent no directory request, printed nothing and
    left the table as it was. *)
Theorem fetch_organizations_empty_spreadsheet (E : env) (s : state) :
  (∀ n name, ∃ v, ssm_get_parameter E n name = Ok v) →
  (∀ n url headers data,
     ∃ status_code text body token,
       requests_post E n url headers data = HttpResponse status_code text (inl body) ∧
       py_get body "access_token" = Ok (PStr token)) →
  (∀ n, read_excel_codes E n odscode_file_path = Ok []) →
  fetch_organizations E s = (Raise UnboundLocalError, ticks 6 s).
Proof. intros Hssm Htoken Hcodes. by apply fetch_organizations_no_codes. Qed.

Lemma fetch_organizations_empty_spreadsheet_witness :
  fetch_organizations env_no_codes empty_state
  = (Raise UnboundLocalError, ticks 6 empty_state).
Proof.
  apply (fetch_organizations_empty_spreadsheet env_no_codes empty_state).
  - intros n name. eexists. reflexivity.
  - intros n url headers data. eexists _, _, _, _. split; reflexivity.
  - reflexivity.
Defined.

(** * Further properties: the content of a record, and the writer on a key
      that exists *)

Lemma entry_records_content (random_id now_time : string) (resvars : pyval)
    (records : list pyval) :
  entry_records random_id now_time resvars = Ok records →
  is_organization resvars = true →
  ∃ org name address items addr (d : dict),
    py_get resvars "resource" = Ok org ∧
    py_get org "name" = Ok (PStr name) ∧
    py_get_default org "address" (PList []) = Ok address ∧
    py_iter address = Ok items ∧
    Forall2 (λ a a', capitalize_address_item a = Ok a')
            (List.filter isinstance_dict items) addr ∧
    records = [PDict d] ∧
    dict_lookup "name" d = Some (PStr (title name)) ∧
    dict_lookup "Address" d = Some (PList addr) ∧
    dict_lookup "active" d = Some (PStr "true") ∧
    dict_lookup "createdBy" d = Some (PStr "Admin") ∧
    dict_lookup "modifiedBy" d = Some (PStr "Admin") ∧
    dict_lookup "position" d
    = Some (PDict [("longitude", PStr ""); ("latitude", PStr "")]) ∧
    dict_lookup "managingOrganization" d = Some (PStr "").
Proof.
  unfold entry_records, is_organization, normalised_address. intros H.
  bind_inv H as org Horg. rewrite Horg. cbn [mbind outcome_bind].
  bind_inv H as rt Hrt. rewrite Hrt. intros Hisorg. rewrite Hisorg in H.
  bind_inv H as addr Haddr. bind_inv H as lookup_field Hid.
  bind_inv H as name Hname. bind_inv H as name' Htitle. injection H as <-.
  bind_inv Haddr as address Haddress. bind_inv Haddr as items Hitems.
  apply mapM_Ok_Forall2 in Haddr.
  destruct name as [| | | name | |]; try discriminate. injection Htitle as <-.
  exists org, name, address, items, addr. eexists.
  split_and!; try done.
  all: unfold canonical_record;
    by destruct (py_eq_str (try_except (uprn_path org) (PStr "NA")) "NA").
Qed.

(** X17.  What a record holds.  For each [Organization] entry, in order, the
    record has the title-cased name of the organisation (which is a str), an
    [Address] list with the normalisation of every dict item of the
    organisation's address in order (items that are not dicts are skipped),
    [active] ["true"], [createdBy] and [modifiedBy] ["Admin"], empty
    coordinates and an empty [managingOrganization]. *)
Theorem process_organizations_record_content (E : env)
    (entries records : list pyval) (s s' : state) :
  process_organizations E (PList entries) s = (Ok records, s') →
  Forall2
    (λ resvars r,
       ∃ org name address items addr (d : dict),
         py_get resvars "resource" = Ok org ∧
         py_get org "name" = Ok (PStr name) ∧
         py_get_default org "address" (PList []) = Ok address ∧
         py_iter address = Ok items ∧
         Forall2 (λ a a', capitalize_address_item a = Ok a')
                 (List.filter isinstance_dict items) addr ∧
         r = PDict d ∧
         dict_lookup "name" d = Some (PStr (title name)) ∧
         dict_lookup "Address" d = Some (PList addr) ∧
         dict_lookup "active" d = Some (PStr "true") ∧
         dict_lookup "createdBy" d = Some (PStr "Admin") ∧
         dict_lookup "modifiedBy" d = Some (PStr "Admin") ∧
         dict_lookup "position" d
         = Some (PDict [("longitude", PStr ""); ("latitude", PStr "")]) ∧
         dict_lookup "managingOrganization" d = Some (PStr ""))
    (List.filter is_organization entries) records.
Proof.
  rewrite process_organizations_run, process_organizations_with_records.
  intros [= H _]. bind_inv H as per_entry Hper. injection H as <-.
  apply mapM_Ok_Forall2 in Hper.
  induction Hper as [| e recs entries per_entry He _ IH]; cbn [List.filter concat].
  - constructor.
  - destruct (is_organization e) eqn:Hisorg.
    + destruct (entry_records_content _ _ _ _ He Hisorg)
        as (org & name & address & items & addr & d & ? & ? & ? & ? & ? & -> & ?).
      cbn [app]. constructor; [| done]. exists org, name, address, items, addr, d.
      tauto.
    + apply entry_records_organization in He. rewrite Hisorg in He. by subst recs.
Qed.

Lemma process_organizations_record_content_witness :
  Forall2
    (λ resvars r,
       ∃ org name address items addr (d : dict),
         py_get resvars "resource" = Ok org ∧
         py_get org "name" = Ok (PStr name) ∧
         py_get_default org "address" (PList []) = Ok address ∧
         py_iter address = Ok items ∧
         Forall2 (λ a a', capitalize_address_item a = Ok a')
                 (List.filter isinstance_dict items) addr ∧
         r = PDict d ∧
         dict_lookup "name" d = Some (PStr (title name)) ∧
         dict_lookup "Address" d = Some (PList addr) ∧
         dict_lookup "active" d = Some (PStr "true") ∧
         dict_lookup "createdBy" d = Some (PStr "Admin") ∧
         dict_lookup "modifiedBy" d = Some (PStr "Admin") ∧
         dict_lookup "position" d
         = Some (PDict [("longitude", PStr ""); ("latitude", PStr "")]) ∧
         dict_lookup "managingOrganization" d = Some (PStr ""))
    (List.filter is_organization [PDict second_entry])
    [PDict (canonical_record (drawn_id example_env empty_state)
              (drawn_time example_env empty_state)
              (PStr "XYZ789") (PStr "The Other Surgery") [] (PStr "NA"))].
Proof.
  apply (process_organizations_record_content example_env _ _
           empty_state (after_draws empty_state)).
  reflexivity.
Defined.


